(* Shallow embedding of src/lm_eval/models/custom_lm.py (class TorchLLM):
   the set-up decisions of __init__, tokenisation (tok_encode), log-likelihood scoring with its memo table
   (_loglikelihood_tokens_unbatched, _loglikelihood_tokens,
   loglikelihood_rolling) and generation (generate_until, generate).

   The external libraries (the transformer forward pass, log_softmax, the
   tokenizer, the sampler and the KV cache) are Section variables: every
   theorem holds for all of their behaviours.  Log-probabilities are taken
   in exact arithmetic (Z) rather than floating point. *)

From Stdlib Require Import ZArith Lia Ascii String.
From stdpp Require Import base gmap strings list.

Open Scope Z_scope.
Set Warnings "-register-all".

(* ------------------------------------------------------------------ *)
(** * Python values and exceptions                                     *)
(* ------------------------------------------------------------------ *)

Inductive exn :=
  | AssertionError
  | TypeError
  | IndexError
  | KeyError
  | UnboundLocalError.

(** The dynamically typed values that flow through [generate_until],
    [generate] and [loglikelihood_rolling]; floats as exact numbers. *)
Inductive pyval :=
  | PNone
  | PInt (z : Z)
  | PFloat (q : Z)
  | PBool (b : bool)
  | PStr (s : string)
  | PList (l : list pyval)
  | PTuple (l : list pyval).

(** [l[start:]] *)
Definition py_slice_from {A} (l : list A) (start : Z) : list A :=
  let n := Z.of_nat (length l) in
  let b := if start <? 0 then Z.max 0 (n + start) else Z.min start n in
  drop (Z.to_nat b) l.

(** [len(v)] *)
Definition py_len (v : pyval) : exn + Z :=
  match v with
  | PStr s => inr (Z.of_nat (String.length s))
  | PList l | PTuple l => inr (Z.of_nat (length l))
  | _ => inl TypeError
  end.

(** [a + b] on lists (the only use in the file: [generation + [eot]]). *)
Definition py_add (a b : pyval) : exn + pyval :=
  match a, b with
  | PList x, PList y => inr (PList (x ++ y))
  | PStr x, PStr y => inr (PStr (x ++ y))
  | PInt x, PInt y => inr (PInt (x + y))
  | _, _ => inl TypeError
  end.

(** [d[key]] on a dict given as an association list. *)
Fixpoint py_getitem (d : list (string * pyval)) (key : string) : exn + pyval :=
  match d with
  | [] => inl KeyError
  | (k, v) :: d' => if String.eqb k key then inr v else py_getitem d' key
  end.

(** The part of the object state that the modelled methods read or write. *)
Record TorchLLM := {
  add_bos_token : bool;
  batch_size : Z;
  ll_cache : gmap string (list Z);
}.

Definition set_ll_cache (self : TorchLLM) (c : gmap string (list Z)) : TorchLLM :=
  {| add_bos_token := add_bos_token self; batch_size := batch_size self;
     ll_cache := c |}.

(* ------------------------------------------------------------------ *)
(** * tok_encode                                                       *)
(* ------------------------------------------------------------------ *)

Section TokEncode.

(** [self.tokenizer.encode(string, add_special_tokens=...)] *)
Variable encode : string -> bool -> list nat.

(** [left_truncate_len] is [None] or an int; [add_special_tokens] is
    [None] or a bool. *)
Definition tok_encode (self : TorchLLM) (s : string)
    (left_truncate_len : option Z) (add_special_tokens : option bool) : list nat :=
  let special := match add_special_tokens with
                 | None => orb false (add_bos_token self)
                 | Some b => b
                 end in
  let encoding := encode s special in
  match left_truncate_len with
  | Some k => if negb (k =? 0) then py_slice_from encoding (- k) else encoding
  | None => encoding
  end.

End TokEncode.

(* ------------------------------------------------------------------ *)
(** * _loglikelihood_tokens_unbatched and _loglikelihood_tokens        *)
(* ------------------------------------------------------------------ *)

(** [((context string, generation string), context tokens, generation tokens)] *)
Definition request : Type := (string * string) * list nat * list nat.

Fixpoint sumZ (l : list Z) : Z :=
  match l with [] => 0 | x :: l' => x + sumZ l' end.

Definition b2z (b : bool) : Z := if b then 1 else 0.

(** [row.max(dim=-1)[1]]: the index of the first maximal entry. *)
Fixpoint argmax_from (row : list Z) (i best_i : nat) (best : Z) : nat :=
  match row with
  | [] => best_i
  | x :: row' =>
      if best <? x then argmax_from row' (S i) i x
      else argmax_from row' (S i) best_i best
  end.

Definition argmax_row (row : list Z) : nat :=
  match row with
  | [] => 0%nat
  | x :: row' => argmax_from row' 1 0 x
  end.

(** [t[idx]] on a vocabulary vector.  Token ids are taken to lie within
    the vocabulary; torch raises on an out-of-range id, which is read as 0
    here and which no theorem below relies on. *)
Definition at_index (row : list Z) (idx : nat) : Z := default 0 (row !! idx).

Section LogLikelihood.

(** [self.model.forward(sequences)] on a batch of one: the row of logits at
    position [j] of the input sequence. *)
Variable model_forward : list nat -> nat -> list Z.
(** [torch.nn.functional.log_softmax(_, dim=-1)] on one row. *)
Variable log_softmax : list Z -> list Z.

(** The fresh forward-pass scoring of one request (lines 162-190).
    Returns the (log likelihood, greedy) pair and the vector that the
    "insane hack" of line 184 writes into [ll_cache]; that line indexes
    [expanded_log_probs[0, -1]] and [logits[0, -1]], which raises
    [IndexError] ([None] here) when the shifted sequence is empty. *)
Definition score_fresh (context_tokens generation_tokens : list nat)
    : (Z * bool) * option (list Z) :=
  let masks0 := repeat false (length context_tokens)
                  ++ repeat true (length generation_tokens) in
  let sequences0 := context_tokens ++ generation_tokens in
  (* masks[:, 1:], labels = sequences[:, 1:], sequences = sequences[:, :-1] *)
  let masks := tail masks0 in
  let labels := tail sequences0 in
  let sequences := removelast sequences0 in
  let logits := map (fun j => log_softmax (model_forward sequences j))
                    (seq 0 (length sequences)) in
  let expanded_log_probs := zip_with at_index logits labels in
  let traj_log_probs := sumZ (zip_with (fun e m => e * b2z m) expanded_log_probs masks) in
  let cached := match last expanded_log_probs, last logits with
                | Some last_expanded, Some last_logits =>
                    Some (map (fun x => traj_log_probs - last_expanded + x) last_logits)
                | _, _ => None
                end in
  let argmax := map argmax_row logits in
  (* ((argmax == labels) * masks).all(dim=1) *)
  let greedy_decoding :=
    forallb (fun p => andb (Nat.eqb p.1.1 p.1.2) p.2)
            (zip (zip argmax labels) masks) in
  ((traj_log_probs, greedy_decoding), cached).

Definition _loglikelihood_tokens_unbatched (self : TorchLLM) (requests : list request)
    : (exn + list (Z * bool)) * TorchLLM :=
  match requests with
  | [(cs, gs, context_tokens, generation_tokens)] =>
      match ll_cache self !! cs, generation_tokens with
      | Some traj_probs, [g] =>
          let greedy := Nat.eqb (argmax_row traj_probs) g in
          (inr [(at_index traj_probs g, greedy)], self)
      | _, _ =>
          let '(res, cached) := score_fresh context_tokens generation_tokens in
          if Nat.eqb (length generation_tokens) 1 then
            match cached with
            | Some c => (inr [res], set_ll_cache self (<[cs := c]> (ll_cache self)))
            | None => (inl IndexError, self)
            end
          else (inr [res], self)
      end
  | _ => (inl AssertionError, self)
  end.

Fixpoint _loglikelihood_tokens (self : TorchLLM) (requests : list request)
    : (exn + list (Z * bool)) * TorchLLM :=
  match requests with
  | [] => (inr [], self)
  | r :: rest =>
      match _loglikelihood_tokens_unbatched self [r] with
      | (inl e, self') => (inl e, self')
      | (inr out, self') =>
          match _loglikelihood_tokens self' rest with
          | (inl e, self'') => (inl e, self'')
          | (inr outs, self'') => (inr (out ++ outs), self'')
          end
      end
  end.

(** Whether [_loglikelihood_tokens_unbatched] takes the fresh path
    (line 157 fails). *)
Definition cache_miss (self : TorchLLM) (cs : string) (gen : list nat) : bool :=
  match ll_cache self !! cs, gen with
  | Some _, [_] => false
  | _, _ => true
  end.

(** The scoring the spec describes: the sum of the log-softmaxed logits at
    the generation tokens, and the greedy flag "every generation token is
    the argmax at its position".  Generation token [i] is predicted at
    input position [length ctx - 1 + i]. *)
Definition spec_row (ctx gen : list nat) (j : nat) : list Z :=
  log_softmax (model_forward (removelast (ctx ++ gen)) j).

Definition spec_loglikelihood (ctx gen : list nat) : Z :=
  sumZ (imap (fun i g => at_index (spec_row ctx gen (length ctx - 1 + i)) g) gen).

Definition spec_greedy (ctx gen : list nat) : bool :=
  forallb id (imap (fun i g => Nat.eqb (argmax_row (spec_row ctx gen (length ctx - 1 + i))) g) gen).

End LogLikelihood.

(* ------------------------------------------------------------------ *)
(** * loglikelihood_rolling (dynamically typed requests)               *)
(* ------------------------------------------------------------------ *)

(** [torch.tensor(tokens, dtype=torch.int64)] on a list of token ids. *)
Definition as_token_list (v : pyval) : option (list nat) :=
  match v with
  | PList l =>
      mapM (fun x => match x with
                     | PInt z => if 0 <=? z then Some (Z.to_nat z) else None
                     | _ => None
                     end) l
  | _ => None
  end.

Section Rolling.

Variable model_forward : list nat -> nat -> list Z.
Variable log_softmax : list Z -> list Z.
(** Iterating [self.tokenizer(generations, add_special_tokens=False)]: the
    items the list comprehension of line 219 receives. *)
Variable tokenizer_batch : list string -> list pyval.
Variable eot_token_id : Z.
(** [self.tokenizer.bos_token] and [self.tokenizer.bos_token_id] *)
Variable bos_token : string.
Variable bos_token_id : pyval.

(** [_loglikelihood_tokens_unbatched([request])] on a request built at
    run time, with the Python type checks of lines 157-167. *)
Definition unbatched_dyn (self : TorchLLM) (req : pyval) : (exn + list pyval) * TorchLLM :=
  match req with
  | PTuple [PTuple [PStr cs; _]; context_tokens; generation_tokens] =>
      let hit := match ll_cache self !! cs with
                 | Some v =>
                     match py_len generation_tokens, generation_tokens with
                     | inl e, _ => Some (inl e)
                     | inr 1, PList [PInt g] =>
                         let g := Z.to_nat g in
                         Some (inr [PTuple [PFloat (at_index v g);
                                            PBool (Nat.eqb (argmax_row v) g)]])
                     | inr 1, _ => Some (inl TypeError)
                     | inr _, _ => None
                     end
                 | None => None
                 end in
      match hit with
      | Some r => (r, self)
      | None =>
          match py_len context_tokens, py_len generation_tokens,
                py_add context_tokens generation_tokens with
          | inl e, _, _ | _, inl e, _ | _, _, inl e => (inl e, self)
          | inr _, inr _, inr _ =>
              match as_token_list context_tokens, as_token_list generation_tokens with
              | Some ctx, Some gen =>
                  let '((ll, greedy), cached) := score_fresh model_forward log_softmax ctx gen in
                  if Nat.eqb (length gen) 1 then
                    match cached with
                    | Some c => (inr [PTuple [PFloat ll; PBool greedy]],
                                 set_ll_cache self (<[cs := c]> (ll_cache self)))
                    | None => (inl IndexError, self)
                    end
                  else (inr [PTuple [PFloat ll; PBool greedy]], self)
              | _, _ => (inl TypeError, self)
              end
          end
      end
  | _ => (inl TypeError, self)
  end.

Fixpoint ll_tokens_dyn (self : TorchLLM) (requests : list pyval) : (exn + list pyval) * TorchLLM :=
  match requests with
  | [] => (inr [], self)
  | r :: rest =>
      match unbatched_dyn self r with
      | (inl e, self') => (inl e, self')
      | (inr out, self') =>
          match ll_tokens_dyn self' rest with
          | (inl e, self'') => (inl e, self'')
          | (inr outs, self'') => (inr (out ++ outs), self'')
          end
      end
  end.

(** [[generation + [self.eot_token_id] for generation in generations]] *)
Fixpoint append_eot (gens : list pyval) : exn + list pyval :=
  match gens with
  | [] => inr []
  | g :: gens' =>
      match py_add g (PList [PInt eot_token_id]), append_eot gens' with
      | inl e, _ | _, inl e => inl e
      | inr g', inr gs => inr (g' :: gs)
      end
  end.

(** [requests] are the [request.args[0]] strings. *)
Definition loglikelihood_rolling (self : TorchLLM) (requests : list string)
    : (exn + pyval) * TorchLLM :=
  match append_eot (tokenizer_batch requests) with
  | inl e => (inl e, self)
  | inr generations =>
      let new_requests :=
        map (fun g => PTuple [PTuple [PStr bos_token; g]; bos_token_id; g]) generations in
      match ll_tokens_dyn self new_requests with
      | (inl e, self') => (inl e, self')
      | (inr [], self') => (inl IndexError, self')
      | (inr (r :: _), self') => (inr (PTuple [r]), self')
      end
  end.

(** The shape the harness expects: one float per request. *)
Definition is_float_list (v : pyval) (n : nat) : Prop :=
  match v with
  | PList l => length l = n /\ Forall (fun x => exists q, x = PFloat q) l
  | _ => False
  end.

End Rolling.

(* ------------------------------------------------------------------ *)
(** * generate and generate_until                                      *)
(* ------------------------------------------------------------------ *)

(** [response.split(sep)[0]] for a non-empty separator: the text before
    the first occurrence of [sep]. *)
Fixpoint split_first (response sep : string) : string :=
  if String.prefix sep response then EmptyString
  else match response with
       | EmptyString => EmptyString
       | String c rest => String c (split_first rest sep)
       end.

(** [response.split(stop_seq)[0]]; only reached after [len(stop_seq) > 0],
    so [stop_seq] is a str, list or tuple, and [str.split] accepts only a str. *)
Definition py_split0 (response : string) (stop_seq : pyval) : exn + string :=
  match stop_seq with
  | PStr sep => inr (split_first response sep)
  | _ => inl TypeError
  end.

(** [range(1, max_length)] needs an int. *)
Definition py_range_stop (v : pyval) : exn + Z :=
  match v with
  | PInt z => inr z
  | PBool b => inr (b2z b)
  | _ => inl TypeError
  end.

(** Observable calls on the KV cache and the console. *)
Inductive event :=
  | EvReset                      (* self.kv_cache.reset() *)
  | EvForward (x : list nat)     (* self.model(x, kv_cache=self.kv_cache) *)
  | EvWarn.                      (* print("[warning] max_new_tokens reached") *)

(** A message [{"role": ..., "content": ...}] *)
Definition message : Type := string * string.

(** [request.args]: the prompt and the generation-kwargs dict. *)
Record gen_request := { args0 : string; args1 : list (string * pyval) }.

Section Generation.

Variable K : Type.                           (* the KV cache object *)
Variable Logits : Type.
Variable model_call : list nat -> K -> Logits * K.
Variable sample : Logits -> nat.             (* inference.utils.sample(logits)[0].item() *)
Variable kv_reset : K -> K.
(** [self.tokenizer.decode(tokens, skip_special_tokens=True).strip()] *)
Variable decode : list nat -> string.
(** [self.tokenizer.apply_chat_template] on one conversation. *)
Variable apply_chat_template : list message -> list nat.
Variable eot_ids : list nat.

(** The state threaded through [generate]: the KV cache, the calls made so
    far, and the function-local loop variable [i] (unbound until the first
    iteration of [for i in range(1, max_length)]). *)
Record gstate := { kv : K; trace : list event; i_var : option Z }.

Definition call_model (x : list nat) (s : gstate) : Logits * gstate :=
  let '(lg, kv') := model_call x (kv s) in
  (lg, {| kv := kv'; trace := trace s ++ [EvForward x]; i_var := i_var s |}).

(** [new_tokens[-len(self.eot_ids):] == self.eot_ids] *)
Definition eot_hit (new_tokens : list nat) : bool :=
  bool_decide (py_slice_from new_tokens (- Z.of_nat (length eot_ids)) = eot_ids).

(** [for i in range(...)] from index [i], [n] iterations left (lines 257-263). *)
Fixpoint decode_loop (n : nat) (i : Z) (cur : nat) (new_tokens : list nat) (s : gstate)
    : list nat * gstate :=
  match n with
  | O => (new_tokens, s)
  | S n' =>
      let s1 := {| kv := kv s; trace := trace s; i_var := Some i |} in
      let '(lg, s2) := call_model [cur] s1 in
      let cur' := sample lg in
      let new_tokens' := new_tokens ++ [cur'] in
      if eot_hit new_tokens' then (new_tokens', s2)
      else decode_loop n' (i + 1) cur' new_tokens' s2
  end.

Inductive decode_outcome :=
  | DecEarly (s : gstate)                      (* return [], self.kv_cache *)
  | DecErr (e : exn) (s : gstate)
  | DecDone (new_tokens : list nat) (s : gstate).

Definition outcome_state (o : decode_outcome) : gstate :=
  match o with DecEarly s | DecErr _ s | DecDone _ s => s end.

(** One iteration of the outer loop of [generate], lines 245-267. *)
Definition decode_conversation (prompt : list nat) (max_length : pyval) (s : gstate)
    : decode_outcome :=
  let s1 := {| kv := kv_reset (kv s); trace := trace s ++ [EvReset]; i_var := i_var s |} in
  let '(lg, s2) := call_model prompt s1 in
  let cur := sample lg in
  let new_tokens := [cur] in
  if eot_hit new_tokens then DecEarly s2
  else match py_range_stop max_length with
       | inl e => DecErr e s2
       | inr m =>
           let '(new_tokens', s3) := decode_loop (Z.to_nat (m - 1)) 1 cur new_tokens s2 in
           match i_var s3 with
           | None => DecErr UnboundLocalError s3
           | Some i =>
               if i =? m - 1
               then DecDone (new_tokens' ++ eot_ids)
                      {| kv := kv s3; trace := trace s3 ++ [EvWarn]; i_var := i_var s3 |}
               else DecDone new_tokens' s3
           end
       end.

(** [for stop_seq in stop_seqs: if len(stop_seq) > 0: response = response.split(stop_seq)[0]] *)
Fixpoint apply_stop_seqs (response : string) (stop_seqs : list pyval) : exn + string :=
  match stop_seqs with
  | [] => inr response
  | st :: rest =>
      match py_len st with
      | inl e => inl e
      | inr n =>
          if 0 <? n then
            match py_split0 response st with
            | inl e => inl e
            | inr r => apply_stop_seqs r rest
            end
          else apply_stop_seqs response rest
      end
  end.

Inductive gen_result :=
  | GenList (responses : list string)
  | GenTuple (kv_cache : K)            (* the tuple ([], self.kv_cache) *)
  | GenErr (e : exn).

Fixpoint generate_loop (items : list (list nat * pyval * pyval)) (stop_seqs : list pyval)
    (responses : list string) (s : gstate) : gen_result * gstate :=
  match items with
  | [] => (GenList responses, s)
  | (prompt, max_length, _) :: rest =>
      match decode_conversation prompt max_length s with
      | DecEarly s' => (GenTuple (kv s'), s')
      | DecErr e s' => (GenErr e, s')
      | DecDone new_tokens s' =>
          match apply_stop_seqs (decode new_tokens) stop_seqs with
          | inl e => (GenErr e, s')
          | inr response => generate_loop rest stop_seqs (responses ++ [response]) s'
          end
      end
  end.

Definition generate (conversations : list (list message)) (max_lengths stop_seqs : list pyval)
    (kv0 : K) : gen_result * gstate :=
  let prompts := map apply_chat_template conversations in
  generate_loop (zip (zip prompts max_lengths) stop_seqs) stop_seqs []
    {| kv := kv0; trace := []; i_var := None |}.

(** Lines 230-236: build the three lists, reading the dict of each request. *)
Fixpoint collect_requests (requests : list gen_request)
    : exn + (list (list message) * list pyval * list pyval) :=
  match requests with
  | [] => inr ([], [], [])
  | r :: rest =>
      match py_getitem (args1 r) "until", py_getitem (args1 r) "max_gen_toks" with
      | inl e, _ | _, inl e => inl e
      | inr until, inr max_gen_toks =>
          match collect_requests rest with
          | inl e => inl e
          | inr (cs, mls, sss) =>
              inr ([("user", args0 r)] :: cs, until :: mls, max_gen_toks :: sss)
          end
      end
  end.

Definition generate_until (requests : list gen_request) (kv0 : K) : gen_result * gstate :=
  match collect_requests requests with
  | inl e => (GenErr e, {| kv := kv0; trace := []; i_var := None |})
  | inr (conversations, max_lengths, stop_seqs) =>
      generate conversations max_lengths stop_seqs kv0
  end.

End Generation.

Arguments kv {_} _.
Arguments trace {_} _.
Arguments i_var {_} _.
Arguments DecEarly {_} _.
Arguments DecErr {_} _ _.
Arguments DecDone {_} _ _.
Arguments GenList {_} _.
Arguments GenTuple {_} _.
Arguments GenErr {_} _.

(* ------------------------------------------------------------------ *)
(** * Python truthiness, dict helpers and substrings                   *)
(* ------------------------------------------------------------------ *)

(** [bool(v)] *)
Definition py_truthy (v : pyval) : bool :=
  match v with
  | PNone => false
  | PInt z | PFloat z => negb (z =? 0)
  | PBool b => b
  | PStr s => negb (String.eqb s EmptyString)
  | PList l | PTuple l => negb (Nat.eqb (length l) 0)
  end.

(** [d.get(key, default)] *)
Fixpoint py_get (d : list (string * pyval)) (key : string) (default : pyval) : pyval :=
  match d with
  | [] => default
  | (k, v) :: d' => if String.eqb k key then v else py_get d' key default
  end.

(** [d[key] = v] *)
Fixpoint py_setitem (d : list (string * pyval)) (key : string) (v : pyval)
    : list (string * pyval) :=
  match d with
  | [] => [(key, v)]
  | (k, w) :: d' => if String.eqb k key then (k, v) :: d' else (k, w) :: py_setitem d' key v
  end.

(** [sub in s] *)
Definition contains (s sub : string) : Prop :=
  exists a b, s = String.append a (String.append sub b).

(* ------------------------------------------------------------------ *)
(** * __init__: the checkpoint, tokenizer and LoRA set-up decisions     *)
(* ------------------------------------------------------------------ *)

(** What [__init__] decides before handing over to the libraries. *)
Record model_setup := {
  main_ckpt_dir : string;
  setup_eot_ids : list nat;             (* self.eot_ids *)
  model_params : list (string * pyval); (* params passed to ModelParams *)
  lora_linear_injected : bool;          (* make_replace_linear_with_lora applied *)
  lora_embedding_injected : bool;       (* make_replace_embedding_with_lora applied *)
  weight_paths : list string;           (* first argument of load_model_weights *)
  lora_linear_merged : bool;            (* replace_lora_with_linear applied *)
  lora_embedding_merged : bool;         (* replace_lora_with_embedding applied *)
}.

Section Init.

Variable parent : string -> string.                   (* Path(p).parent *)
Variable join : string -> string -> string.           (* dir / name *)
Variable file_exists : string -> bool.                (* (dir / name).exists() *)
Variable read_json : string -> list (string * pyval). (* json.load(open(path)) *)
(** The [assistant_end] field of the tokenizer config read from a file name. *)
Variable assistant_end : string -> list nat.
Variable eos_token_id : nat.                          (* self.tokenizer.eos_token_id *)

(** Lines 23-99 of [TorchLLM.__init__]; [lora_path] and [tokenizer_config]
    are [None] or a string. *)
Definition init_setup (base_path : string) (lora_path tokenizer_config : option string)
    (device : string) : exn + model_setup :=
  (* self.lora_path = Path(lora_path) if lora_path else None *)
  let lora_path := match lora_path with
                   | Some p => if String.eqb p EmptyString then None else Some p
                   | None => None
                   end in
  let main_ckpt_dir := match lora_path with
                       | Some l => parent l
                       | None => parent base_path
                       end in
  let eot_ids := match tokenizer_config with
                 | Some c => assistant_end c
                 | None => [eos_token_id]
                 end in
  let params := read_json (join main_ckpt_dir "params.json") in
  let lora_args := if file_exists (join main_ckpt_dir "lora_args.json")
                   then Some (read_json (join main_ckpt_dir "lora_args.json"))
                   else None in
  let params := if String.eqb device "cpu"
                then py_setitem params "use_flash_attn" (PBool false) else params in
  let weights := match lora_path with
                 | Some l => [base_path; l]
                 | None => [base_path]
                 end in
  match lora_args with
  | None =>
      inr {| main_ckpt_dir := main_ckpt_dir; setup_eot_ids := eot_ids;
             model_params := params; lora_linear_injected := false;
             lora_embedding_injected := false; weight_paths := weights;
             lora_linear_merged := false; lora_embedding_merged := false |}
  | Some la =>
      match py_getitem la "lora_rank", py_getitem la "lora_alpha",
            py_getitem la "lora_dropout" with
      | inl e, _, _ | _, inl e, _ | _, _, inl e => inl e
      | inr _, inr _, inr _ =>
          let emb := py_truthy (py_get la "lora_embedding" (PBool false)) in
          inr {| main_ckpt_dir := main_ckpt_dir; setup_eot_ids := eot_ids;
                 model_params := params; lora_linear_injected := true;
                 lora_embedding_injected := emb; weight_paths := weights;
                 lora_linear_merged := true;
                 lora_embedding_merged :=
                   py_truthy (py_get la "lora_embedding" (PBool false)) |}
      end
  end.

End Init.

(* ------------------------------------------------------------------ *)
(** * Concrete instances used by witnesses and counterexamples         *)
(* ------------------------------------------------------------------ *)

(** A three-token vocabulary whose model always prefers token 1. *)
Definition toy_forward (_ : list nat) (_ : nat) : list Z := [-4; -1; -3].
Definition toy_log_softmax (row : list Z) : list Z := row.

Definition toy_self : TorchLLM :=
  {| add_bos_token := false; batch_size := 8; ll_cache := ∅ |}.

(** A toy decoder: the KV cache holds the tokens fed so far, the "logits"
    are that context, and the sampler emits token 5 while the context is
    shorter than three tokens and token 2 (end of text) afterwards. *)
Definition toy_model_call (x : list nat) (c : list nat) : list nat * list nat :=
  (c ++ x, c ++ x).
Definition toy_sample (ctx : list nat) : nat :=
  if Nat.ltb (length ctx) 3 then 5%nat else 2%nat.
Definition toy_reset (_ : list nat) : list nat := [].
Fixpoint toy_decode (toks : list nat) : string :=
  match toks with
  | [] => EmptyString
  | t :: rest => if Nat.eqb t 2 then toy_decode rest else String "x"%char (toy_decode rest)
  end.
(** One prompt token per character of the messages' contents. *)
Definition toy_template (msgs : list message) : list nat :=
  concat (map (fun m => map (fun _ => 1%nat) (list_ascii_of_string m.2)) msgs).
Definition toy_eot : list nat := [2%nat].
(** A tokenizer with one token per character, and a leading token 0 when
    special tokens are added. *)
Definition toy_encode (s : string) (special : bool) : list nat :=
  (if special then [0%nat] else []) ++ map (fun _ => 1%nat) (list_ascii_of_string s).
(** Iterating a batch encoding as a list of token lists. *)
Definition toy_tokenizer_batch (reqs : list string) : list pyval :=
  map (fun s => PList (map (fun _ => PInt 1) (list_ascii_of_string s))) reqs.

Definition toy_generate :=
  generate (list nat) (list nat) toy_model_call toy_sample toy_reset toy_decode
    toy_template toy_eot.
Definition toy_generate_until :=
  generate_until (list nat) (list nat) toy_model_call toy_sample toy_reset toy_decode
    toy_template toy_eot.
Definition toy_decode_conversation :=
  decode_conversation (list nat) (list nat) toy_model_call toy_sample toy_reset toy_eot.
Definition toy_state0 : gstate (list nat) := {| kv := [7%nat]; trace := []; i_var := None |}.

(** A checkpoint layout for [__init__]: every file exists, and every JSON
    file holds the three LoRA hyper-parameters. *)
Definition toy_parent (_ : string) : string := "ckpt".
Definition toy_join (d n : string) : string := String.append d n.
Definition toy_file_exists (_ : string) : bool := true.
Definition toy_read_json (_ : string) : list (string * pyval) :=
  [("lora_rank", PInt 8); ("lora_alpha", PInt 16); ("lora_dropout", PFloat 0)].
Definition toy_assistant_end (_ : string) : list nat := [2%nat].
Definition toy_init_setup :=
  init_setup toy_parent toy_join toy_file_exists toy_read_json toy_assistant_end 2.

Example toy_generate_ok :
  (toy_generate [[("user", "ab")]; [("user", "a")]] [PInt 4; PInt 3] [PStr "q"; PStr ""] []).1
  = GenList ["x"; "xx"].
Proof. reflexivity. Qed.

Example toy_tok_encode :
  tok_encode toy_encode toy_self "abcd" (Some 2) (Some true) = [1; 1]%nat
  /\ tok_encode toy_encode toy_self "abcd" (Some 9) (Some true) = [0; 1; 1; 1; 1]%nat.
Proof. split; reflexivity. Qed.

(** The bos token id is an int, so [len(context_tokens)] raises. *)
Example toy_rolling :
  (loglikelihood_rolling toy_forward toy_log_softmax toy_tokenizer_batch 2 "<s>" (PInt 0)
     toy_self ["ab"; "c"]).1 = inl TypeError.
Proof. reflexivity. Qed.

Example score_fresh_toy :
  score_fresh toy_forward toy_log_softmax [0; 2]%nat [1]%nat
  = ((-1, false), Some [-4; -1; -3]).
Proof. reflexivity. Qed.

Example score_fresh_toy_short :
  score_fresh toy_forward toy_log_softmax [0]%nat [1; 1]%nat = ((-2, true), Some [-5; -2; -4]).
Proof. reflexivity. Qed.

(* ------------------------------------------------------------------ *)
(** * Lemmas on the log-likelihood scoring                             *)
(* ------------------------------------------------------------------ *)

Lemma sumZ_app (l1 l2 : list Z) : sumZ (l1 ++ l2) = sumZ l1 + sumZ l2.
Proof. induction l1 as [|x l1 IH]; simpl; [done | rewrite IH; lia]. Qed.

Lemma length_removelast {A} (l : list A) : length (removelast l) = (length l - 1)%nat.
Proof.
  induction l as [|x l IH]; [done|].
  destruct l as [|y l]; [done|].
  change (removelast (x :: y :: l)) with (x :: removelast (y :: l)).
  simpl in *. rewrite IH. lia.
Qed.

Lemma sum_masked_context (R : nat -> list Z) (labels : list nat) (a : nat) :
  length labels = length (seq a (length labels)) ->
  sumZ (zip_with (fun e m => e * b2z m)
          (zip_with at_index (map R (seq a (length labels))) labels)
          (repeat false (length labels))) = 0.
Proof.
  revert a. induction labels as [|l ls IH]; intros a _; [done|].
  simpl. rewrite IH; [lia|]. by rewrite length_seq.
Qed.

Lemma sum_masked_generation (R : nat -> list Z) (gen : list nat) (a : nat) :
  sumZ (zip_with (fun e m => e * b2z m)
          (zip_with at_index (map R (seq a (length gen))) gen)
          (repeat true (length gen)))
  = sumZ (imap (fun i g => at_index (R (a + i)%nat) g) gen).
Proof.
  revert a. induction gen as [|g gen IH]; intros a; [done|].
  simpl. rewrite IH. rewrite Nat.add_0_r. f_equal; [lia|].
  f_equal. apply imap_ext. intros i x _. simpl. f_equal. f_equal. lia.
Qed.

Section LogLikelihoodProofs.

Variable model_forward : list nat -> nat -> list Z.
Variable log_softmax : list Z -> list Z.

(** With a non-empty context, the first component of the fresh scoring is
    the masked sum over the generation positions. *)
Lemma score_fresh_loglikelihood (c0 : nat) (ctx' gen : list nat) :
  (score_fresh model_forward log_softmax (c0 :: ctx') gen).1.1
  = spec_loglikelihood model_forward log_softmax (c0 :: ctx') gen.
Proof.
  unfold score_fresh, spec_loglikelihood, spec_row.
  set (S0 := removelast ((c0 :: ctx') ++ gen)).
  assert (HS : length S0 = (length ctx' + length gen)%nat).
  { unfold S0. rewrite length_removelast. simpl. rewrite length_app. lia. }
  clearbody S0. simpl.
  rewrite HS, seq_app, map_app.
  rewrite (zip_with_app _ _ _ ctx' gen); [|by rewrite length_map, length_seq].
  rewrite (zip_with_app _ _ _ (repeat false (length ctx')));
    [|by rewrite length_zip_with, length_map, length_seq, repeat_length; lia].
  rewrite sumZ_app, sum_masked_context; [|by rewrite length_seq].
  rewrite Nat.add_0_l, sum_masked_generation.
  rewrite Z.add_0_l, Nat.sub_0_r. reflexivity.
Qed.

(** With two or more context tokens the first label is a context token whose
    mask is 0, so [((argmax == labels) * masks).all()] is always false. *)
Lemma score_fresh_greedy_long_context (c0 c1 : nat) (ctx'' gen : list nat) :
  (score_fresh model_forward log_softmax (c0 :: c1 :: ctx'') gen).1.2 = false.
Proof.
  unfold score_fresh. simpl.
  destruct (ctx'' ++ gen) as [|x rest] eqn:E; simpl; by rewrite andb_false_r.
Qed.

(** For a single generation token, the vector stored in [ll_cache] is the
    log-probability row at the position right after the context. *)
Lemma score_fresh_cached_row (c0 : nat) (ctx' : list nat) (g : nat) :
  (score_fresh model_forward log_softmax (c0 :: ctx') [g]).2
  = Some (spec_row model_forward log_softmax (c0 :: ctx') [g] (length ctx')).
Proof.
  unfold score_fresh, spec_row.
  rewrite removelast_last.
  set (R := fun j => log_softmax (model_forward (c0 :: ctx') j)).
  change (tail ((c0 :: ctx') ++ [g])) with (ctx' ++ [g]).
  change (tail (repeat false (length (c0 :: ctx')) ++ repeat true (length [g])))
    with (repeat false (length ctx') ++ [true]).
  change (length (c0 :: ctx')) with (S (length ctx')).
  rewrite seq_S, map_app.
  rewrite (zip_with_app _ _ _ ctx' [g]); [|by rewrite length_map, length_seq].
  rewrite (zip_with_app _ _ _ (repeat false (length ctx')));
    [|by rewrite length_zip_with, length_map, length_seq, repeat_length; lia].
  rewrite sumZ_app, sum_masked_context; [|by rewrite length_seq].
  rewrite !last_app. simpl. f_equal.
  replace (0 + (at_index (R (length ctx')) g * 1 + 0) - at_index (R (length ctx')) g)
    with 0 by lia.
  rewrite (map_ext _ id); [apply map_id|]. intros x. simpl. lia.
Qed.

(** With an empty context and one generation token the shifted sequence
    is empty: line 184 has nothing to index. *)
Lemma score_fresh_empty_context (g : nat) :
  (score_fresh model_forward log_softmax [] [g]).2 = None.
Proof. reflexivity. Qed.

Lemma score_fresh_single_cases (ctx : list nat) (g : nat) :
  (ctx = [] /\ (score_fresh model_forward log_softmax ctx [g]).2 = None)
  \/ (ctx <> [] /\ exists c, (score_fresh model_forward log_softmax ctx [g]).2 = Some c).
Proof.
  destruct ctx as [|c0 ctx'].
  - left. split; [done|]. apply score_fresh_empty_context.
  - right. split; [done|]. rewrite score_fresh_cached_row. eauto.
Qed.


Lemma unbatched_dom (self : TorchLLM) (cs gs : string) (ctx gen : list nat) :
  dom (ll_cache (_loglikelihood_tokens_unbatched model_forward log_softmax
                   self [(cs, gs, ctx, gen)]).2)
  = if cache_miss self cs gen && Nat.eqb (length gen) 1 && negb (Nat.eqb (length ctx) 0)
    then {[cs]} ∪ dom (ll_cache self) else dom (ll_cache self).
Proof.
  unfold _loglikelihood_tokens_unbatched, cache_miss.
  destruct (ll_cache self !! cs) as [v|] eqn:Hc, gen as [|g [|g' gen]];
    [done|done|done| | |].
  - destruct (score_fresh _ _ _ _). simpl. rewrite ?andb_false_r. done.
  - destruct (score_fresh_single_cases ctx g) as [[-> Hs]|[Hne [c Hs]]];
      destruct (score_fresh _ _ _ _) as [res cached]; simpl in Hs; subst cached;
      [done|].
    destruct ctx; [done|]. apply dom_insert_L.
  - destruct (score_fresh _ _ _ _). simpl. rewrite ?andb_false_r. done.
Qed.

Lemma unbatched_dom_mono (self : TorchLLM) (reqs : list request) :
  dom (ll_cache self)
  ⊆ dom (ll_cache (_loglikelihood_tokens_unbatched model_forward log_softmax self reqs).2).
Proof.
  destruct reqs as [|[[[cs gs] ctx] gen] [|r' reqs]]; try done.
  rewrite unbatched_dom. destruct (_ && _); set_solver.
Qed.

Lemma ll_tokens_cons (self : TorchLLM) (r : request) (rest : list request) :
  _loglikelihood_tokens model_forward log_softmax self (r :: rest)
  = match _loglikelihood_tokens_unbatched model_forward log_softmax self [r] with
    | (inl e, self') => (inl e, self')
    | (inr out, self') =>
        match _loglikelihood_tokens model_forward log_softmax self' rest with
        | (inl e, self'') => (inl e, self'')
        | (inr outs, self'') => (inr (out ++ outs), self'')
        end
    end.
Proof. reflexivity. Qed.

Lemma ll_tokens_dom_mono (self : TorchLLM) (reqs : list request) :
  dom (ll_cache self)
  ⊆ dom (ll_cache (_loglikelihood_tokens model_forward log_softmax self reqs).2).
Proof.
  revert self. induction reqs as [|r reqs IH]; intros self; [done|].
  rewrite ll_tokens_cons.
  pose proof (unbatched_dom_mono self [r]) as H1.
  destruct (_loglikelihood_tokens_unbatched _ _ self [r]) as [[e|out] self'].
  { exact H1. }
  specialize (IH self'). simpl in H1.
  destruct (_loglikelihood_tokens _ _ self' reqs) as [[e|outs] self''];
    simpl in *; set_solver.
Qed.

End LogLikelihoodProofs.

Section RollingProofs.

Variable model_forward : list nat -> nat -> list Z.
Variable log_softmax : list Z -> list Z.
Variable tokenizer_batch : list string -> list pyval.
Variable eot_token_id : Z.
Variable bos_token : string.
Variable bos_token_id : pyval.

Lemma unbatched_dyn_dom_mono (self : TorchLLM) (req : pyval) :
  dom (ll_cache self)
  ⊆ dom (ll_cache (unbatched_dyn model_forward log_softmax self req).2).
Proof.
  unfold unbatched_dyn.
  repeat case_match; simplify_eq/=; try done;
    rewrite ?dom_insert_L; set_solver.
Qed.

Lemma ll_tokens_dyn_dom_mono (self : TorchLLM) (reqs : list pyval) :
  dom (ll_cache self)
  ⊆ dom (ll_cache (ll_tokens_dyn model_forward log_softmax self reqs).2).
Proof.
  revert self. induction reqs as [|r reqs IH]; intros self; [done|].
  cbn [ll_tokens_dyn].
  pose proof (unbatched_dyn_dom_mono self r) as H1.
  destruct (unbatched_dyn _ _ self r) as [[e|out] self']; [exact H1|].
  specialize (IH self'). simpl in H1.
  destruct (ll_tokens_dyn _ _ self' reqs) as [[e|outs] self'']; simpl in *; set_solver.
Qed.

Lemma rolling_dom_mono (self : TorchLLM) (requests : list string) :
  dom (ll_cache self)
  ⊆ dom (ll_cache (loglikelihood_rolling model_forward log_softmax tokenizer_batch
                     eot_token_id bos_token bos_token_id self requests).2).
Proof.
  unfold loglikelihood_rolling.
  destruct (append_eot _ _) as [e|gens]; [done|].
  match goal with |- context [ll_tokens_dyn ?a ?b ?c ?d] =>
    pose proof (ll_tokens_dyn_dom_mono c d) as H; destruct (ll_tokens_dyn a b c d) as [[e|[|r rs]] s']
  end; exact H.
Qed.

(** The value [loglikelihood_rolling] returns is an exception or the
    one-element tuple [(results[0],)]. *)
Lemma rolling_shape (self : TorchLLM) (requests : list string) :
  (exists e, (loglikelihood_rolling model_forward log_softmax tokenizer_batch
               eot_token_id bos_token bos_token_id self requests).1 = inl e)
  \/ (exists r, (loglikelihood_rolling model_forward log_softmax tokenizer_batch
               eot_token_id bos_token bos_token_id self requests).1 = inr (PTuple [r])).
Proof.
  unfold loglikelihood_rolling.
  destruct (append_eot _ _) as [e|gens]; [left; eauto|].
  destruct (ll_tokens_dyn _ _ _ _) as [[e|[|r rs]] s']; simpl; eauto.
Qed.

End RollingProofs.

Section GenerationProofs.

Variable K : Type.
Variable Logits : Type.
Variable model_call : list nat -> K -> Logits * K.
Variable sample : Logits -> nat.
Variable kv_reset : K -> K.
Variable decode : list nat -> string.
Variable apply_chat_template : list message -> list nat.
Variable eot_ids : list nat.

Local Abbreviation dloop := (decode_loop K Logits model_call sample eot_ids).
Local Abbreviation dconv :=
  (decode_conversation K Logits model_call sample kv_reset eot_ids).
Local Abbreviation gloop :=
  (generate_loop K Logits model_call sample kv_reset decode eot_ids).
Local Abbreviation hit := (eot_hit eot_ids).

(** The decode loop samples one token per forward call, stops early only on
    an end-of-text suffix, and leaves [i] at the last index it reached. *)
Lemma decode_loop_spec (n : nat) (i : Z) (cur : nat) (toks : list nat) (s : gstate K) :
  exists extra xs,
    dloop n i cur toks s
      = (toks ++ extra,
         {| kv := kv (dloop n i cur toks s).2;
            trace := trace s ++ map EvForward xs;
            i_var := if decide (n = 0%nat) then i_var s
                     else Some (i + Z.of_nat (length extra) - 1) |})
    /\ length xs = length extra
    /\ (length extra <= n)%nat
    /\ (n <> 0%nat -> (1 <= length extra)%nat)
    /\ ((length extra < n)%nat -> hit (toks ++ extra) = true).
Proof.
  revert i cur toks s. induction n as [|n IH]; intros i cur toks s.
  - exists [], []. simpl. rewrite !app_nil_r. destruct s; simpl.
    split; [done|]. repeat split; lia.
  - cbn [decode_loop]. unfold call_model. simpl.
    destruct (model_call [cur] (kv s)) as [lg kv1] eqn:Hm. simpl.
    destruct (eot_hit eot_ids (toks ++ [sample lg])) eqn:He.
    + exists [sample lg], [[cur]]. simpl. split.
      { do 2 f_equal. f_equal. lia. }
      repeat split; simpl; try lia. intros _. done.
    + destruct (IH (i + 1) (sample lg) (toks ++ [sample lg])
                  {| kv := kv1; trace := trace s ++ [EvForward [cur]]; i_var := Some i |})
        as (extra & xs & Heq & Hxs & Hle & Hpos & Hstop).
      exists (sample lg :: extra), ([cur] :: xs). rewrite Heq. simpl.
      split.
      { rewrite <- app_assoc. simpl. rewrite <- app_assoc. simpl. do 2 f_equal.
        destruct (decide (n = 0%nat)) as [->|Hn].
        - simpl in Hle. assert (extra = []) as -> by (destruct extra; simpl in *; [done|lia]).
          simpl. f_equal. lia.
        - f_equal. lia. }
      repeat split; simpl; try lia.
      intros Hlt. rewrite <- app_assoc in Hstop. apply Hstop. lia.
Qed.

(** Every conversation starts with [kv_cache.reset()] followed by the
    forward pass on its prompt; no later reset happens for it. *)
Lemma dconv_trace (prompt : list nat) (max_length : pyval) (s : gstate K) :
  exists rest,
    trace (outcome_state K (dconv prompt max_length s))
      = trace s ++ EvReset :: EvForward prompt :: rest
    /\ ~ In EvReset rest.
Proof.
  unfold decode_conversation, call_model. simpl.
  destruct (model_call prompt (kv_reset (kv s))) as [lg kv1]. simpl.
  rewrite <- app_assoc. simpl.
  destruct (eot_hit eot_ids [sample lg]).
  { exists []. simpl. split; [done|]. auto. }
  destruct (py_range_stop max_length) as [e|m].
  { exists []. simpl. split; [done|]. auto. }
  destruct (decode_loop_spec (Z.to_nat (m - 1)) 1 (sample lg) [sample lg]
              {| kv := kv1; trace := trace s ++ [EvReset; EvForward prompt];
                 i_var := i_var s |}) as (extra & xs & Heq & _).
  rewrite Heq. simpl. rewrite <- app_assoc. simpl.
  assert (Hnr : forall l : list (list nat), ~ In EvReset (map EvForward l)).
  { intros l Hin. apply in_map_iff in Hin as (x & Hx & _). discriminate. }
  destruct (if decide _ then _ else _) as [i|].
  - destruct (i =? m - 1); simpl.
    + exists (map EvForward xs ++ [EvWarn]). split; [by rewrite <- !app_assoc|].
      intros Hin. apply in_app_or in Hin as [Hin|[Hin|Hin]]; [by eapply Hnr|congruence|done].
    + exists (map EvForward xs). split; [by rewrite <- !app_assoc|]. apply Hnr.
  - exists (map EvForward xs). split; [by rewrite <- !app_assoc|]. apply Hnr.
Qed.

(** [decode_conversation] reads the incoming state only through
    [kv_reset (kv s)], [trace s] and [i_var s]. *)
Lemma dconv_after_reset (prompt : list nat) (max_length : pyval) (s s' : gstate K) :
  kv_reset (kv s) = kv_reset (kv s') -> trace s = trace s' -> i_var s = i_var s' ->
  dconv prompt max_length s = dconv prompt max_length s'.
Proof. intros Hk Ht Hi. unfold decode_conversation. by rewrite Hk, Ht, Hi. Qed.

Lemma gloop_trace (items : list (list nat * pyval * pyval)) (stop_seqs : list pyval)
    (responses : list string) (s : gstate K) :
  exists blocks rest,
    trace (gloop items stop_seqs responses s).2
      = trace s ++ concat (map (fun b => EvReset :: EvForward b.1 :: b.2) blocks)
    /\ Forall (fun b => ~ In EvReset b.2) blocks
    /\ map fst blocks ++ rest = map (fun it => it.1.1) items.
Proof.
  revert responses s. induction items as [|[[prompt ml] st] items IH]; intros responses s.
  - exists [], []. simpl. rewrite app_nil_r. auto.
  - destruct (dconv_trace prompt ml s) as (r & Hr & Hnr).
    cbn [generate_loop].
    destruct (dconv prompt ml s) as [s'|e s'|toks s'] eqn:E; simpl in Hr.
    + exists [(prompt, r)], (map (fun it => it.1.1) items). simpl.
      rewrite Hr, app_nil_r. auto.
    + exists [(prompt, r)], (map (fun it => it.1.1) items). simpl.
      rewrite Hr, app_nil_r. auto.
    + destruct (apply_stop_seqs (decode toks) stop_seqs) as [e|resp].
      * exists [(prompt, r)], (map (fun it => it.1.1) items). simpl.
        rewrite Hr, app_nil_r. auto.
      * destruct (IH (responses ++ [resp]) s') as (bs & rest & Hb & Hf & Hp).
        exists ((prompt, r) :: bs), rest. rewrite Hb, Hr. simpl.
        rewrite <- app_assoc. split; [done|]. split; [by constructor|].
        simpl. by rewrite Hp.
Qed.

Lemma gloop_kv_indep (items : list (list nat * pyval * pyval)) (stop_seqs : list pyval)
    (responses : list string) (s s' : gstate K) :
  kv_reset (kv s) = kv_reset (kv s') -> trace s = trace s' -> i_var s = i_var s' ->
  (gloop items stop_seqs responses s).1 = (gloop items stop_seqs responses s').1
  /\ trace (gloop items stop_seqs responses s).2 = trace (gloop items stop_seqs responses s').2.
Proof.
  intros Hk Ht Hi. destruct items as [|[[prompt ml] st] items]; [done|].
  cbn [generate_loop]. by rewrite (dconv_after_reset prompt ml s s' Hk Ht Hi).
Qed.

Lemma zip_prompts_prefix {A B} (prompts : list (list nat)) (mls : list A) (sss : list B) :
  exists rest, map (fun it => it.1.1) (zip (zip prompts mls) sss) ++ rest = prompts.
Proof.
  revert mls sss. induction prompts as [|p ps IH]; intros mls sss.
  - by exists [].
  - destruct mls as [|m mls]; [by eexists|]. destruct sss as [|x sss]; [by eexists|].
    destruct (IH mls sss) as (rest & Hr). exists rest. simpl. by rewrite Hr.
Qed.

End GenerationProofs.

(* ------------------------------------------------------------------ *)
(** * The claims                                                       *)
(* ------------------------------------------------------------------ *)

(** C9: for a positive [left_truncate_len = k], [tok_encode] returns a
    suffix of the untruncated encoding (same [add_special_tokens]) of length
    at most [k]; with [left_truncate_len] equal to [None] or [0] it returns
    the full encoding. *)
Theorem tok_encode_left_truncate (encode : string -> bool -> list nat)
    (self : TorchLLM) (s : string) (ast : option bool) (k : Z) (Hk : 0 < k) :
  (exists pre, tok_encode encode self s None ast
               = pre ++ tok_encode encode self s (Some k) ast)
  /\ (length (tok_encode encode self s (Some k) ast) <= Z.to_nat k)%nat
  /\ tok_encode encode self s (Some 0) ast = tok_encode encode self s None ast.
Proof.
  unfold tok_encode, py_slice_from.
  set (enc := encode s _).
  replace (negb (k =? 0)) with true by (symmetry; apply negb_true_iff, Z.eqb_neq; lia).
  replace (- k <? 0) with true by (symmetry; apply Z.ltb_lt; lia).
  split; [|split].
  - eexists. symmetry. apply take_drop.
  - rewrite length_drop. lia.
  - reflexivity.
Qed.

(** C1 (code bug): on the request with context tokens [0; 2] and
    generation token [1], where the toy model's log-probabilities make
    token 1 the argmax at the generation position, the log likelihood is
    the spec's masked sum (-1) but the greedy flag is [false] although the
    spec's greedy check holds: [((argmax == labels) * masks).all()] is
    false at every context position of the labels. *)
Theorem ll_unbatched_greedy_flag_wrong :
  (_loglikelihood_tokens_unbatched toy_forward toy_log_softmax toy_self
     [(("a b", " c"), [0; 2]%nat, [1]%nat)]).1 = inr [(-1, false)]
  /\ spec_loglikelihood toy_forward toy_log_softmax [0; 2]%nat [1]%nat = -1
  /\ spec_greedy toy_forward toy_log_softmax [0; 2]%nat [1]%nat = true.
Proof. split; [|split]; reflexivity. Qed.

(** C2 (code bug): a first single-token request on context "a b" stores
    the next-position log-probability row; the same request then hits the
    cache and returns [(-1, true)], while the fresh computation for it
    returns [(-1, false)]. *)
Theorem ll_cache_hit_differs_from_fresh :
  let r : request := (("a b", " c"), [0; 2]%nat, [1]%nat) in
  let '(out1, self1) :=
    _loglikelihood_tokens_unbatched toy_forward toy_log_softmax toy_self [r] in
  out1 = inr [(-1, false)]
  /\ ll_cache self1 !! "a b" = Some (spec_row toy_forward toy_log_softmax [0; 2]%nat [1]%nat 1)
  /\ (_loglikelihood_tokens_unbatched toy_forward toy_log_softmax self1 [r]).1
     = inr [(-1, true)]
  /\ (score_fresh toy_forward toy_log_softmax [0; 2]%nat [1]%nat).1 = (-1, false).
Proof. vm_compute. split; [|split; [|split]]; reflexivity. Qed.




(** C8: no operation removes a key of [ll_cache].  One call of
    [_loglikelihood_tokens_unbatched] adds exactly the context string of a
    single-token request that missed the cache and has non-empty context
    tokens (with empty ones line 184 raises and nothing is stored), and
    keeps every other key;
    hence [_loglikelihood_tokens] and [loglikelihood_rolling] only grow the
    key set.  ([tok_encode], [generate] and [generate_until] neither read
    nor write [ll_cache].) *)
Theorem ll_cache_keys_monotone
    (model_forward : list nat -> nat -> list Z) (log_softmax : list Z -> list Z) :
  (forall self cs gs ctx gen,
     dom (ll_cache (_loglikelihood_tokens_unbatched model_forward log_softmax
                      self [(cs, gs, ctx, gen)]).2)
     = if cache_miss self cs gen && Nat.eqb (length gen) 1 && negb (Nat.eqb (length ctx) 0)
       then {[cs]} ∪ dom (ll_cache self) else dom (ll_cache self))
  /\ (forall self requests,
       dom (ll_cache self)
       ⊆ dom (ll_cache (_loglikelihood_tokens model_forward log_softmax self requests).2))
  /\ (forall tokenizer_batch eot_token_id bos_token bos_token_id self requests,
       dom (ll_cache self)
       ⊆ dom (ll_cache (loglikelihood_rolling model_forward log_softmax tokenizer_batch
                          eot_token_id bos_token bos_token_id self requests).2)).
Proof.
  split; [|split].
  - intros. apply unbatched_dom.
  - intros. apply ll_tokens_dom_mono.
  - intros. apply rolling_dom_mono.
Qed.

(** C5 (code bug): whatever the tokenizer returns, [loglikelihood_rolling]
    never returns a list of one float per request: it raises, or returns
    the one-element tuple [(results[0],)] whose item is the first
    (log likelihood, greedy) pair. *)
Theorem rolling_not_list_of_floats
    (model_forward : list nat -> nat -> list Z) (log_softmax : list Z -> list Z)
    (tokenizer_batch : list string -> list pyval) (eot_token_id : Z)
    (bos_token : string) (bos_token_id : pyval)
    (self : TorchLLM) (requests : list string) :
  ~ (exists v, (loglikelihood_rolling model_forward log_softmax tokenizer_batch
                  eot_token_id bos_token bos_token_id self requests).1 = inr v
               /\ is_float_list v (length requests))
  /\ ((exists e, (loglikelihood_rolling model_forward log_softmax tokenizer_batch
                   eot_token_id bos_token bos_token_id self requests).1 = inl e)
      \/ (exists r, (loglikelihood_rolling model_forward log_softmax tokenizer_batch
                   eot_token_id bos_token bos_token_id self requests).1 = inr (PTuple [r]))).
Proof.
  pose proof (rolling_shape model_forward log_softmax tokenizer_batch eot_token_id
                bos_token bos_token_id self requests) as Hs.
  split; [|exact Hs].
  intros (v & Hv & Hf).
  destruct Hs as [(e & He) | (r & Hr)]; rewrite ?He, ?Hr in Hv; simplify_eq/=. done.
Qed.

Section GenerationClaims.

Variable K : Type.
Variable Logits : Type.
Variable model_call : list nat -> K -> Logits * K.
Variable sample : Logits -> nat.
Variable kv_reset : K -> K.
Variable decode : list nat -> string.
Variable apply_chat_template : list message -> list nat.
Variable eot_ids : list nat.

(** C3 (code bug): for a request whose dict holds the harness's
    [until] (a list of strings) and [max_gen_toks] (an int),
    [generate_until] passes [until] as [max_length] and [max_gen_toks] as
    the stop sequences, so [range(1, max_length)] raises [TypeError]
    (or, when the first sampled token is end of text, the tuple
    [([], kv_cache)] comes back): never a list with one response. *)
Theorem generate_until_swapped_arguments (prompt : string) (until : list pyval)
    (max_gen_toks : Z) (kv0 : K) :
  let req := {| args0 := prompt;
                args1 := [("until", PList until); ("max_gen_toks", PInt max_gen_toks)] |} in
  let res := (generate_until K Logits model_call sample kv_reset decode
                apply_chat_template eot_ids [req] kv0).1 in
  (res = GenErr TypeError \/ exists k, res = GenTuple k)
  /\ ~ exists responses, res = GenList responses /\ length responses = 1%nat.
Proof.
  simpl. unfold generate_until. simpl. unfold generate. simpl.
  unfold decode_conversation, call_model. simpl.
  destruct (model_call (apply_chat_template [("user", prompt)]) (kv_reset kv0)) as [lg kv1].
  simpl. destruct (eot_hit eot_ids [sample lg]); simpl.
  - split; [eauto|]. intros (r & Hr & _). discriminate.
  - split; [auto|]. intros (r & Hr & _). discriminate.
Qed.

(** C4 (amended): for an int cap [max_length = m >= 2], once the first
    sampled token does not end the text, a conversation's decoding raises
    nothing and samples between 1 and [m] tokens (one per forward call),
    stopping before [m] only on an end-of-text suffix; the warning is
    printed and [eot_ids] appended exactly when [m] tokens were sampled,
    whether or not the last of them completed [eot_ids]. *)
Theorem decode_cap_warning (prompt : list nat) (m : Z) (s : gstate K) (Hm : 2 <= m)
    (Hfirst : eot_hit eot_ids [sample (model_call prompt (kv_reset (kv s))).1] = false) :
  exists sampled xs kv',
    decode_conversation K Logits model_call sample kv_reset eot_ids prompt (PInt m) s
    = DecDone (sampled ++ (if Nat.eqb (length sampled) (Z.to_nat m) then eot_ids else []))
        {| kv := kv';
           trace := trace s ++ EvReset :: map EvForward (prompt :: xs)
                    ++ (if Nat.eqb (length sampled) (Z.to_nat m) then [EvWarn] else []);
           i_var := Some (Z.of_nat (length sampled) - 1) |}
    /\ length (prompt :: xs) = length sampled
    /\ (1 <= length sampled <= Z.to_nat m)%nat
    /\ ((length sampled < Z.to_nat m)%nat -> eot_hit eot_ids sampled = true).
Proof.
  unfold decode_conversation, call_model. simpl.
  destruct (model_call prompt (kv_reset (kv s))) as [lg kv1] eqn:Hmc.
  simpl in Hfirst. simpl. rewrite Hfirst.
  destruct (decode_loop_spec K Logits model_call sample eot_ids (Z.to_nat (m - 1)) 1
              (sample lg) [sample lg]
              {| kv := kv1; trace := (trace s ++ [EvReset]) ++ [EvForward prompt];
                 i_var := i_var s |})
    as (extra & xs & Heq & Hxs & Hle & Hpos & Hstop).
  rewrite Heq. simpl.
  destruct (decide (Z.to_nat (m - 1) = 0%nat)) as [H0|_]; [lia|].
  assert (Hlen : (1 <= length extra)%nat) by (apply Hpos; lia).
  exists (sample lg :: extra), xs, (kv (decode_loop K Logits model_call sample eot_ids
    (Z.to_nat (m - 1)) 1 (sample lg) [sample lg]
    {| kv := kv1; trace := (trace s ++ [EvReset]) ++ [EvForward prompt];
       i_var := i_var s |}).2).
  destruct (Z.eqb_spec (1 + Z.of_nat (length extra) - 1) (m - 1)) as [Heqm|Hnem];
    destruct (Nat.eqb_spec (length (sample lg :: extra)) (Z.to_nat m)) as [Heqn|Hnen];
    simpl in *;
    try lia.
  - split.
    + replace (Some (Z.of_nat (S (length extra)) - 1))
        with (Some (1 + Z.of_nat (length extra) - 1)) by (f_equal; lia).
      by rewrite <- !app_assoc.
    + repeat split; simpl; try lia.
  - split.
    + rewrite !app_nil_r.
      replace (Some (Z.of_nat (S (length extra)) - 1))
        with (Some (1 + Z.of_nat (length extra) - 1)) by (f_equal; lia).
      by rewrite <- !app_assoc.
    + repeat split; simpl; try lia. intros Hlt. apply Hstop. lia.
Qed.

(** C7: within one [generate] call every decoded conversation begins with
    [kv_cache.reset()] immediately followed by the forward pass on its
    prompt, and no other reset happens in between; the blocks follow the
    conversations in order.  When [reset] returns the same cache whatever
    its argument, the result and the calls of [generate] do not depend on
    the cache state it started from. *)
Theorem generate_resets_kv_cache
    (Hreset : forall k k', kv_reset k = kv_reset k')
    (conversations : list (list message)) (max_lengths stop_seqs : list pyval)
    (kv0 kv0' : K) :
  (exists blocks rest,
     trace (generate K Logits model_call sample kv_reset decode apply_chat_template
              eot_ids conversations max_lengths stop_seqs kv0).2
       = concat (map (fun b => EvReset :: EvForward b.1 :: b.2) blocks)
     /\ Forall (fun b => ~ In EvReset b.2) blocks
     /\ map fst blocks ++ rest = map apply_chat_template conversations)
  /\ (generate K Logits model_call sample kv_reset decode apply_chat_template
        eot_ids conversations max_lengths stop_seqs kv0).1
     = (generate K Logits model_call sample kv_reset decode apply_chat_template
          eot_ids conversations max_lengths stop_seqs kv0').1
  /\ trace (generate K Logits model_call sample kv_reset decode apply_chat_template
              eot_ids conversations max_lengths stop_seqs kv0).2
     = trace (generate K Logits model_call sample kv_reset decode apply_chat_template
                eot_ids conversations max_lengths stop_seqs kv0').2.
Proof.
  unfold generate.
  split.
  - destruct (gloop_trace K Logits model_call sample kv_reset decode eot_ids
                (zip (zip (map apply_chat_template conversations) max_lengths) stop_seqs)
                stop_seqs [] {| kv := kv0; trace := []; i_var := None |})
      as (blocks & rest & Ht & Hf & Hp).
    destruct (zip_prompts_prefix (map apply_chat_template conversations)
                max_lengths stop_seqs) as (rest' & Hr).
    exists blocks, (rest ++ rest'). split; [exact Ht|]. split; [exact Hf|].
    by rewrite app_assoc, Hp, Hr.
  - apply gloop_kv_indep; simpl; auto.
Qed.

(** C10: when the first token sampled for the first conversation completes
    [eot_ids], [generate] returns the tuple [([], kv_cache)] after one reset
    and one forward pass: no other conversation is processed. *)
Theorem generate_first_token_eot (c : list message) (cs : list (list message))
    (m : pyval) (ms : list pyval) (st : pyval) (ss : list pyval) (kv0 : K)
    (Heot : eot_hit eot_ids
              [sample (model_call (apply_chat_template c) (kv_reset kv0)).1] = true) :
  generate K Logits model_call sample kv_reset decode apply_chat_template eot_ids
    (c :: cs) (m :: ms) (st :: ss) kv0
  = (GenTuple (model_call (apply_chat_template c) (kv_reset kv0)).2,
     {| kv := (model_call (apply_chat_template c) (kv_reset kv0)).2;
        trace := [EvReset; EvForward (apply_chat_template c)];
        i_var := None |}).
Proof.
  unfold generate. simpl. unfold decode_conversation, call_model. simpl.
  destruct (model_call (apply_chat_template c) (kv_reset kv0)) as [lg kv1].
  simpl in *. by rewrite Heot.
Qed.

End GenerationClaims.

(* ------------------------------------------------------------------ *)
(** * Witnesses and counterexamples                                     *)
(* ------------------------------------------------------------------ *)

Lemma tok_encode_left_truncate_witness :
  0 < 2
  /\ (exists pre, tok_encode toy_encode toy_self "abc" None None
                  = pre ++ tok_encode toy_encode toy_self "abc" (Some 2) None)
  /\ (length (tok_encode toy_encode toy_self "abc" (Some 2%Z) None) <= Z.to_nat 2)%nat
  /\ tok_encode toy_encode toy_self "abc" (Some 0) None
     = tok_encode toy_encode toy_self "abc" None None.
Proof.
  split; [lia|]. apply (tok_encode_left_truncate toy_encode toy_self "abc" None 2). lia.
Defined.

(** C4 as stated fails: with cap 2 the second sampled token (2) completes
    the end-of-text sequence, yet the warning is printed and [eot_ids]
    appended a second time. *)
Lemma decode_cap_warning_counterexample :
  toy_decode_conversation [1; 1]%nat (PInt 2) toy_state0
  = DecDone [5; 2; 2]%nat
      {| kv := [1; 1; 5]%nat;
         trace := [EvReset; EvForward [1; 1]%nat; EvForward [5]%nat; EvWarn];
         i_var := Some 1 |}
  /\ eot_hit toy_eot [5; 2]%nat = true.
Proof. split; reflexivity. Qed.

Lemma decode_cap_warning_witness :
  2 <= 2
  /\ eot_hit toy_eot [toy_sample (toy_model_call [1; 1]%nat (toy_reset (kv toy_state0))).1]
     = false
  /\ exists sampled xs kv',
    toy_decode_conversation [1; 1]%nat (PInt 2) toy_state0
    = DecDone (sampled ++ (if Nat.eqb (length sampled) (Z.to_nat 2) then toy_eot else []))
        {| kv := kv';
           trace := trace toy_state0 ++ EvReset :: map EvForward ([1; 1]%nat :: xs)
                    ++ (if Nat.eqb (length sampled) (Z.to_nat 2) then [EvWarn] else []);
           i_var := Some (Z.of_nat (length sampled) - 1) |}
    /\ length ([1; 1]%nat :: xs) = length sampled
    /\ (1 <= length sampled <= Z.to_nat 2)%nat
    /\ ((length sampled < Z.to_nat 2)%nat -> eot_hit toy_eot sampled = true).
Proof.
  split; [lia|]. split; [reflexivity|].
  apply (decode_cap_warning (list nat) (list nat) toy_model_call toy_sample toy_reset
           toy_eot [1; 1]%nat 2 toy_state0); [lia|reflexivity].
Defined.

(** C3 on a concrete request: [generate_until] raises [TypeError]. *)
Example generate_until_toy :
  (toy_generate_until
     [{| args0 := "ab"; args1 := [("until", PList [PStr "x"]); ("max_gen_toks", PInt 5)] |}]
     []).1 = GenErr TypeError.
Proof. reflexivity. Qed.

Lemma generate_resets_kv_cache_witness :
  (forall k k' : list nat, toy_reset k = toy_reset k')
  /\ ((exists blocks rest,
        trace (toy_generate [[("user", "ab")]; [("user", "a")]] [PInt 4; PInt 3] [PStr "q"]
                 [7%nat]).2
        = concat (map (fun b => EvReset :: EvForward b.1 :: b.2) blocks)
        /\ Forall (fun b => ~ In EvReset b.2) blocks
        /\ map fst blocks ++ rest
           = map toy_template [[("user", "ab")]; [("user", "a")]])
      /\ (toy_generate [[("user", "ab")]; [("user", "a")]] [PInt 4; PInt 3] [PStr "q"]
            [7%nat]).1
         = (toy_generate [[("user", "ab")]; [("user", "a")]] [PInt 4; PInt 3] [PStr "q"]
              [8; 9]%nat).1
      /\ trace (toy_generate [[("user", "ab")]; [("user", "a")]] [PInt 4; PInt 3] [PStr "q"]
                  [7%nat]).2
         = trace (toy_generate [[("user", "ab")]; [("user", "a")]] [PInt 4; PInt 3]
                    [PStr "q"] [8; 9]%nat).2).
Proof.
  split; [reflexivity|].
  apply (generate_resets_kv_cache (list nat) (list nat) toy_model_call toy_sample toy_reset
           toy_decode toy_template toy_eot); reflexivity.
Defined.

Lemma generate_first_token_eot_witness :
  eot_hit toy_eot
    [toy_sample (toy_model_call (toy_template [("user", "abc")]) (toy_reset [7%nat])).1] = true
  /\ toy_generate [[("user", "abc")]; [("user", "a")]] [PInt 4; PInt 3] [PStr "q"; PStr ""]
       [7%nat]
     = (GenTuple (toy_model_call (toy_template [("user", "abc")]) (toy_reset [7%nat])).2,
        {| kv := (toy_model_call (toy_template [("user", "abc")]) (toy_reset [7%nat])).2;
           trace := [EvReset; EvForward (toy_template [("user", "abc")])];
           i_var := None |}).
Proof.
  split; [reflexivity|].
  apply (generate_first_token_eot (list nat) (list nat) toy_model_call toy_sample toy_reset
           toy_decode toy_template toy_eot); reflexivity.
Defined.

(* ------------------------------------------------------------------ *)
(** * Further properties of the code                                   *)
(* ------------------------------------------------------------------ *)

(** ** Strings: [str.split(sep)[0]] and the stop sequences *)

Lemma str_app_nil_l (b : string) : String.append EmptyString b = b.
Proof. reflexivity. Qed.

Lemma str_app_cons (x : ascii) (a b : string) :
  String.append (String x a) b = String x (String.append a b).
Proof. reflexivity. Qed.

Lemma str_app_assoc (a b c : string) :
  String.append a (String.append b c) = String.append (String.append a b) c.
Proof. induction a as [|x a IH]; [done|by rewrite !str_app_cons, IH]. Qed.

Lemma str_app_nil_r (a : string) : String.append a EmptyString = a.
Proof. induction a as [|x a IH]; [done|by rewrite str_app_cons, IH]. Qed.

Lemma prefix_iff (p s : string) :
  String.prefix p s = true <-> exists t, s = String.append p t.
Proof.
  revert s. induction p as [|c p IH]; intros s.
  - destruct s; simpl; split; eauto.
  - destruct s as [|c' s]; simpl.
    + split; [discriminate|]. intros [t Ht]. discriminate.
    + destruct (ascii_dec c c') as [->|Hne].
      * rewrite IH. split; intros [t Ht]; exists t; rewrite ?str_app_cons in *; congruence.
      * split; [discriminate|]. intros [t Ht]. rewrite str_app_cons in Ht.
        injection Ht. congruence.
Qed.

Lemma contains_nil (sep : string) : sep <> EmptyString -> ~ contains EmptyString sep.
Proof.
  intros Hs (a & b & H). destruct a as [|c a]; [|discriminate].
  destruct sep; [done|discriminate].
Qed.

Lemma contains_cons (c : ascii) (x sep : string) :
  contains (String c x) sep -> String.prefix sep (String c x) = true \/ contains x sep.
Proof.
  intros (a & b & H). destruct a as [|c' a].
  - left. apply prefix_iff. rewrite str_app_nil_l in H. eauto.
  - right. rewrite str_app_cons in H. injection H as -> H. by exists a, b.
Qed.

Lemma contains_app (x t sep : string) : contains x sep -> contains (String.append x t) sep.
Proof.
  intros (a & b & ->). exists a, (String.append b t). by rewrite <- !str_app_assoc.
Qed.

Lemma split_first_spec (response sep : string) :
  sep <> EmptyString ->
  exists t, response = String.append (split_first response sep) t
    /\ (t = EmptyString \/ String.prefix sep t = true)
    /\ ~ contains (split_first response sep) sep.
Proof.
  intros Hs. induction response as [|c r IH].
  - assert (E : split_first EmptyString sep = EmptyString)
      by (unfold split_first; by destruct (String.prefix sep EmptyString)).
    rewrite E. exists EmptyString. split; [done|split; [auto|by apply contains_nil]].
  - assert (E : split_first (String c r) sep
                 = if String.prefix sep (String c r) then EmptyString
                   else String c (split_first r sep)) by reflexivity.
    rewrite E. destruct (String.prefix sep (String c r)) eqn:Hp.
    + exists (String c r). split; [done|split; [auto|by apply contains_nil]].
    + destruct IH as (t & Ht & Htail & Hnc). exists t.
      split; [rewrite str_app_cons; by rewrite <- Ht|].
      split; [done|]. intros Hc. apply contains_cons in Hc as [Hc|Hc]; [|done].
      apply prefix_iff in Hc as [u Hu].
      assert (String.prefix sep (String c r) = true) as Hp'; [|congruence].
      apply prefix_iff. exists (String.append u t).
      rewrite Ht, <- str_app_cons, Hu. by rewrite str_app_assoc.
Qed.

Lemma split_first_absent (response sep : string) :
  sep <> EmptyString -> ~ contains response sep -> split_first response sep = response.
Proof.
  intros Hs Hnc. destruct (split_first_spec response sep Hs) as (t & Ht & [->|Hp] & _).
  - rewrite str_app_nil_r in Ht. by symmetry.
  - apply prefix_iff in Hp as [u ->]. exfalso. apply Hnc. rewrite Ht.
    exists (split_first response sep), u. reflexivity.
Qed.

Lemma str_length_zero (s : string) : Z.of_nat (String.length s) = 0 -> s = EmptyString.
Proof. destruct s; simpl; [done|lia]. Qed.

Lemma apply_stop_seqs_str_gen (response : string) (seps : list string) :
  exists r, apply_stop_seqs response (map PStr seps) = inr r
    /\ (exists t, response = String.append r t)
    /\ Forall (fun sep => sep <> EmptyString -> ~ contains r sep) seps
    /\ (Forall (fun sep => sep = EmptyString \/ ~ contains response sep) seps -> r = response).
Proof.
  revert response. induction seps as [|sep seps IH]; intros response.
  - exists response. simpl. split; [done|]. split; [exists EmptyString; by rewrite str_app_nil_r|].
    auto.
  - cbn [map apply_stop_seqs py_len].
    destruct (Z.ltb_spec 0 (Z.of_nat (String.length sep))) as [Hpos|Hz].
    + assert (Hs : sep <> EmptyString) by (intros ->; simpl in Hpos; lia).
      cbn [py_split0].
      destruct (split_first_spec response sep Hs) as (t1 & Ht1 & _ & Hnc1).
      destruct (IH (split_first response sep)) as (r & Hr & (t2 & Ht2) & Hf & Hsame).
      exists r. rewrite Hr. split; [done|]. split.
      { exists (String.append t2 t1). by rewrite str_app_assoc, <- Ht2. }
      split.
      * constructor; [|done]. intros _ Hc. apply Hnc1. rewrite Ht2. by apply contains_app.
      * intros Hall. inversion Hall as [|? ? Hh Ht]; subst.
        destruct Hh as [->|Hh]; [done|].
        rewrite (split_first_absent response sep Hs Hh) in Hsame. by apply Hsame.
    + assert (sep = EmptyString) as -> by (apply str_length_zero; lia).
      destruct (IH response) as (r & Hr & Hpre & Hf & Hsame).
      exists r. split; [done|]. split; [done|]. split.
      * constructor; [done|exact Hf].
      * intros Hall. apply Hsame. by inversion Hall.
Qed.

(** ** Dictionary lookups and request collection *)

Lemma py_getitem_absent (d : list (string * pyval)) (key : string) :
  Forall (fun p => p.1 <> key) d -> py_getitem d key = inl KeyError.
Proof.
  induction 1 as [|[k v] d Hk Hd IH]; [done|]. simpl in *.
  by rewrite (proj2 (String.eqb_neq k key) Hk).
Qed.

Lemma collect_requests_missing (requests : list gen_request) :
  Exists (fun r => Forall (fun p => p.1 <> "until") (args1 r)
                   \/ Forall (fun p => p.1 <> "max_gen_toks") (args1 r)) requests ->
  exists e, collect_requests requests = inl e.
Proof.
  induction 1 as [r rest [Hu|Hm]|r rest Hex IH]; cbn [collect_requests].
  - rewrite (py_getitem_absent _ _ Hu). eauto.
  - rewrite (py_getitem_absent _ _ Hm). destruct (py_getitem (args1 r) "until"); eauto.
  - destruct (py_getitem (args1 r) "until"), (py_getitem (args1 r) "max_gen_toks"); eauto.
    destruct IH as [e ->]. eauto.
Qed.

Lemma collect_requests_err (requests : list gen_request) (e : exn) :
  collect_requests requests = inl e -> e = KeyError.
Proof.
  assert (Hg : forall d key e, py_getitem d key = inl e -> e = KeyError).
  { intros d key e'. induction d as [|[k v] d IH]; simpl; [congruence|].
    destruct (String.eqb k key); [congruence|done]. }
  induction requests as [|r rest IH]; cbn [collect_requests]; [done|].
  destruct (py_getitem (args1 r) "until") as [e1|u] eqn:E1; [intros [= <-]; eauto|].
  destruct (py_getitem (args1 r) "max_gen_toks") as [e2|mg] eqn:E2; [intros [= <-]; eauto|].
  destruct (collect_requests rest) as [e3|[[cs mls] sss]]; [intros [= <-]; eauto|done].
Qed.

(** ** Stop values that are not strings *)

Lemma apply_stop_seqs_bad (response : string) (stop_seqs : list pyval) :
  Exists (fun st => (forall sep, st <> PStr sep) /\ py_len st <> inr 0) stop_seqs ->
  exists e, apply_stop_seqs response stop_seqs = inl e.
Proof.
  intros Hex. revert response. induction Hex as [st sss [Hns Hnz]|st sss Hex IH];
    intros response; cbn [apply_stop_seqs].
  - destruct st as [| | | |sep|l|l]; simpl; eauto.
    + by destruct (Hns sep).
    + destruct l as [|x l]; [done|]. simpl. eauto.
    + destruct l as [|x l]; [done|]. simpl. eauto.
  - destruct (py_len st) as [e|n]; eauto.
    destruct (0 <? n); [|apply IH].
    destruct (py_split0 response st); [eauto|apply IH].
Qed.

Section ExtraGeneration.

Variable K : Type.
Variable Logits : Type.
Variable model_call : list nat -> K -> Logits * K.
Variable sample : Logits -> nat.
Variable kv_reset : K -> K.
Variable decode : list nat -> string.
Variable apply_chat_template : list message -> list nat.
Variable eot_ids : list nat.

Local Abbreviation dloop := (decode_loop K Logits model_call sample eot_ids).
Local Abbreviation dconv :=
  (decode_conversation K Logits model_call sample kv_reset eot_ids).
Local Abbreviation gloop :=
  (generate_loop K Logits model_call sample kv_reset decode eot_ids).
Local Abbreviation gen :=
  (generate K Logits model_call sample kv_reset decode apply_chat_template eot_ids).

Lemma gloop_length (items : list (list nat * pyval * pyval)) (stop_seqs : list pyval)
    (responses : list string) (s : gstate K) (rs : list string) :
  (gloop items stop_seqs responses s).1 = GenList rs ->
  length rs = (length responses + length items)%nat.
Proof.
  revert responses s. induction items as [|[[p ml] st] items IH]; intros responses s H.
  - simpl in H. injection H as <-. simpl. lia.
  - cbn [generate_loop] in H.
    destruct (dconv p ml s) as [s'|e s'|toks s']; simpl in H; try discriminate.
    destruct (apply_stop_seqs (decode toks) stop_seqs) as [e|resp]; simpl in H;
      try discriminate.
    apply IH in H. rewrite H, length_app. simpl. lia.
Qed.

Lemma gloop_responses (P : string -> Prop) (items : list (list nat * pyval * pyval))
    (stop_seqs : list pyval) (responses : list string) (s : gstate K) (rs : list string) :
  (forall toks r, apply_stop_seqs (decode toks) stop_seqs = inr r -> P r) ->
  Forall P responses ->
  (gloop items stop_seqs responses s).1 = GenList rs -> Forall P rs.
Proof.
  intros HP. revert responses s.
  induction items as [|[[p ml] st] items IH]; intros responses s Hall H.
  - simpl in H. by injection H as <-.
  - cbn [generate_loop] in H.
    destruct (dconv p ml s) as [s'|e s'|toks s']; simpl in H; try discriminate.
    destruct (apply_stop_seqs (decode toks) stop_seqs) as [e|resp] eqn:E; simpl in H;
      try discriminate.
    refine (IH _ _ _ H). apply Forall_app. split; [done|]. constructor; [|done].
    by apply (HP toks).
Qed.

Lemma gloop_bad_stop (items : list (list nat * pyval * pyval)) (stop_seqs : list pyval)
    (responses : list string) (s : gstate K) (rs : list string) :
  Exists (fun st => (forall sep, st <> PStr sep) /\ py_len st <> inr 0) stop_seqs ->
  (gloop items stop_seqs responses s).1 = GenList rs -> rs = responses.
Proof.
  intros Hex H. destruct items as [|[[p ml] st] items].
  - simpl in H. by injection H as <-.
  - cbn [generate_loop] in H.
    destruct (dconv p ml s) as [s'|e s'|toks s']; simpl in H; try discriminate.
    destruct (apply_stop_seqs_bad (decode toks) stop_seqs Hex) as [e He].
    rewrite He in H. discriminate.
Qed.

Lemma eot_hit_nil (toks : list nat) : eot_hit [] toks = true -> toks = [].
Proof.
  intros H. unfold eot_hit, py_slice_from in H. apply bool_decide_eq_true in H.
  destruct toks as [|t toks]; [done|]. simpl in H. discriminate.
Qed.

End ExtraGeneration.

(** ** Theorems on stop sequences, response counts and the decode loop *)


(** With string stop sequences, the stop loop of [generate] never raises;
    its result is a prefix of the response that contains none of the
    non-empty stop strings, and the response is left unchanged when it
    contains none of them. *)
Theorem stop_seqs_prefix_without_stops (response : string) (seps : list string) :
  exists r, apply_stop_seqs response (map PStr seps) = inr r
    /\ (exists t, response = String.append r t)
    /\ Forall (fun sep => sep <> EmptyString -> ~ contains r sep) seps
    /\ (Forall (fun sep => sep = EmptyString \/ ~ contains response sep) seps -> r = response).
Proof. apply apply_stop_seqs_str_gen. Qed.

Section ExtraGenerationTheorems.

Variable K : Type.
Variable Logits : Type.
Variable model_call : list nat -> K -> Logits * K.
Variable sample : Logits -> nat.
Variable kv_reset : K -> K.
Variable decode : list nat -> string.
Variable apply_chat_template : list message -> list nat.
Variable eot_ids : list nat.

Local Abbreviation gen :=
  (generate K Logits model_call sample kv_reset decode apply_chat_template eot_ids).

(** [generate] applies every stop string of the whole batch to every
    response: a list it returns for string stop values has no response
    containing any of the non-empty stop strings. *)
Theorem generate_responses_avoid_all_stops (conversations : list (list message))
    (max_lengths : list pyval) (seps : list string) (kv0 : K) (rs : list string)
    (Hres : (gen conversations max_lengths (map PStr seps) kv0).1 = GenList rs) :
  Forall (fun r => Forall (fun sep => sep <> EmptyString -> ~ contains r sep) seps) rs.
Proof.
  unfold generate in Hres.
  refine (gloop_responses K Logits model_call sample kv_reset decode eot_ids _ _ _ _ _ _
            _ _ Hres); [|done].
  intros toks r Hr.
  destruct (apply_stop_seqs_str_gen (decode toks) seps) as (r' & Hr' & _ & Hf & _).
  rewrite Hr in Hr'. by injection Hr' as ->.
Qed.

(** A stop value that is neither a str nor of length 0 (for instance the
    list of strings the annotation [list[list[str]]] asks for) makes every
    decoded conversation raise: [generate] then never returns a non-empty
    list of responses. *)
Theorem generate_non_str_stop_no_response (conversations : list (list message))
    (max_lengths stop_seqs : list pyval) (kv0 : K)
    (Hbad : Exists (fun st => (forall sep, st <> PStr sep) /\ py_len st <> inr 0) stop_seqs) :
  forall rs, (gen conversations max_lengths stop_seqs kv0).1 = GenList rs -> rs = [].
Proof.
  intros rs Hres. unfold generate in Hres.
  exact (gloop_bad_stop K Logits model_call sample kv_reset decode eot_ids _ _ _ _ _ Hbad Hres).
Qed.

(** [zip] silently drops the conversations (or caps, or stop values)
    beyond the shortest of the three lists: a list [generate] returns has
    exactly that many responses. *)
Theorem generate_response_count (conversations : list (list message))
    (max_lengths stop_seqs : list pyval) (kv0 : K) (rs : list string)
    (Hres : (gen conversations max_lengths stop_seqs kv0).1 = GenList rs) :
  length rs
  = Nat.min (Nat.min (length conversations) (length max_lengths)) (length stop_seqs).
Proof.
  unfold generate in Hres.
  rewrite (gloop_length K Logits model_call sample kv_reset decode eot_ids _ _ _ _ _ Hres).
  by rewrite !length_zip_with, length_map.
Qed.

(** With an int cap [m <= 1], [range(1, m)] is empty, so when the first
    conversation's first token does not end the text the loop variable [i]
    is read unbound: [generate] raises [UnboundLocalError]. *)
Theorem generate_small_cap_unbound (c : list message) (cs : list (list message))
    (m : Z) (ms : list pyval) (st : pyval) (ss : list pyval) (kv0 : K) (Hm : m <= 1)
    (Hfirst : eot_hit eot_ids
                [sample (model_call (apply_chat_template c) (kv_reset kv0)).1] = false) :
  (gen (c :: cs) (PInt m :: ms) (st :: ss) kv0).1 = GenErr UnboundLocalError.
Proof.
  unfold generate. cbn [map zip zip_with generate_loop].
  unfold decode_conversation, call_model. cbn [kv trace i_var].
  destruct (model_call (apply_chat_template c) (kv_reset kv0)) as [lg kv1].
  simpl in Hfirst. rewrite Hfirst. cbn [py_range_stop].
  replace (Z.to_nat (m - 1)) with 0%nat by lia. reflexivity.
Qed.

(** For a later conversation with an int cap [m <= 1], no loop iteration
    runs and [i] keeps the value left by an earlier conversation: one token
    is sampled after the single forward pass, and the warning and the
    appended [eot_ids] depend only on whether that stale [i] equals
    [m - 1]. *)
Theorem decode_small_cap_stale_index (prompt : list nat) (m : Z) (s : gstate K) (i : Z)
    (Hm : m <= 1) (Hi : i_var s = Some i)
    (Hfirst : eot_hit eot_ids [sample (model_call prompt (kv_reset (kv s))).1] = false) :
  decode_conversation K Logits model_call sample kv_reset eot_ids prompt (PInt m) s
  = DecDone ([sample (model_call prompt (kv_reset (kv s))).1]
               ++ (if i =? m - 1 then eot_ids else []))
      {| kv := (model_call prompt (kv_reset (kv s))).2;
         trace := trace s ++ [EvReset; EvForward prompt]
                  ++ (if i =? m - 1 then [EvWarn] else []);
         i_var := Some i |}.
Proof.
  unfold decode_conversation, call_model. cbn [kv trace i_var].
  destruct (model_call prompt (kv_reset (kv s))) as [lg kv1].
  simpl in Hfirst. rewrite Hfirst. cbn [py_range_stop].
  replace (Z.to_nat (m - 1)) with 0%nat by lia. cbn [decode_loop i_var].
  rewrite Hi.
  destruct (i =? m - 1); simpl; by rewrite ?app_nil_r, <- ?app_assoc.
Qed.

(** For a non-empty [eot_ids], the stopping test
    [new_tokens[-len(eot_ids):] == eot_ids] holds exactly when the tokens
    end with [eot_ids]. *)
Theorem eot_hit_iff_suffix (toks : list nat) (Hne : eot_ids <> []) :
  eot_hit eot_ids toks = true <-> exists pre, toks = pre ++ eot_ids.
Proof.
  unfold eot_hit, py_slice_from. rewrite bool_decide_eq_true.
  assert (Hn : (0 < length eot_ids)%nat).
  { destruct eot_ids; simpl; [done|lia]. }
  replace (- Z.of_nat (length eot_ids) <? 0) with true by (symmetry; apply Z.ltb_lt; lia).
  replace (Z.to_nat (Z.max 0 (Z.of_nat (length toks) + - Z.of_nat (length eot_ids))))
    with (length toks - length eot_ids)%nat by lia.
  split.
  - intros H. exists (take (length toks - length eot_ids) toks).
    rewrite <- H at 2. by rewrite take_drop.
  - intros [pre ->]. rewrite length_app.
    replace (length pre + length eot_ids - length eot_ids)%nat with (length pre) by lia.
    by rewrite drop_app_length.
Qed.

End ExtraGenerationTheorems.

(** With an empty [eot_ids], the slice [new_tokens[-0:]] is the whole
    non-empty token list, so decoding never stops early: for an int cap
    [m >= 2] exactly [m] tokens are sampled, one per forward call, and the
    cap warning is printed. *)
Theorem decode_empty_eot_runs_to_cap {K Logits : Type} (model_call : list nat -> K -> Logits * K)
    (sample : Logits -> nat) (kv_reset : K -> K)
    (prompt : list nat) (m : Z) (s : gstate K) (Hm : 2 <= m) :
  exists sampled xs kv',
    decode_conversation K Logits model_call sample kv_reset [] prompt (PInt m) s
    = DecDone sampled
        {| kv := kv';
           trace := trace s ++ EvReset :: map EvForward (prompt :: xs) ++ [EvWarn];
           i_var := Some (m - 1) |}
    /\ length sampled = Z.to_nat m
    /\ length (prompt :: xs) = length sampled.
Proof.
  unfold decode_conversation, call_model. cbn [kv trace i_var].
  destruct (model_call prompt (kv_reset (kv s))) as [lg kv1].
  cbn [fst snd kv trace i_var].
  destruct (eot_hit [] [sample lg]) eqn:Hf; [by apply eot_hit_nil in Hf|].
  cbn [py_range_stop].
  destruct (decode_loop_spec K Logits model_call sample [] (Z.to_nat (m - 1)) 1
              (sample lg) [sample lg]
              {| kv := kv1; trace := (trace s ++ [EvReset]) ++ [EvForward prompt];
                 i_var := i_var s |})
    as (extra & xs & Heq & Hxs & Hle & Hpos & Hstop).
  rewrite Heq. cbn [i_var kv trace].
  destruct (decide (Z.to_nat (m - 1) = 0%nat)) as [H0|_]; [lia|].
  assert (Hlen : length extra = Z.to_nat (m - 1)).
  { destruct (Nat.lt_ge_cases (length extra) (Z.to_nat (m - 1))) as [Hlt|Hge]; [|lia].
    apply Hstop, eot_hit_nil in Hlt. discriminate. }
  replace (1 + Z.of_nat (length extra) - 1 =? m - 1) with true
    by (symmetry; apply Z.eqb_eq; lia).
  eexists (sample lg :: extra ++ []), xs, _. split; [|split].
  - cbn [app]. do 2 f_equal.
    + by rewrite <- !app_assoc.
    + f_equal. lia.
  - simpl. rewrite app_nil_r. lia.
  - simpl. rewrite app_nil_r. lia.
Qed.

(** [generate_until] reads the keys of every request before generating:
    when some request's dict lacks ["until"] or ["max_gen_toks"], it raises
    [KeyError] without any call on the model or the KV cache. *)
Theorem generate_until_missing_key {K Logits : Type}
    (model_call : list nat -> K -> Logits * K) (sample : Logits -> nat) (kv_reset : K -> K)
    (decode : list nat -> string) (apply_chat_template : list message -> list nat)
    (eot_ids : list nat) (requests : list gen_request) (kv0 : K)
    (Hmiss : Exists (fun r => Forall (fun p => p.1 <> "until") (args1 r)
                              \/ Forall (fun p => p.1 <> "max_gen_toks") (args1 r)) requests) :
  generate_until K Logits model_call sample kv_reset decode apply_chat_template eot_ids
    requests kv0
  = (GenErr KeyError, {| kv := kv0; trace := []; i_var := None |}).
Proof.
  unfold generate_until.
  destruct (collect_requests_missing requests Hmiss) as [e He]. rewrite He.
  by rewrite (collect_requests_err requests e He).
Qed.

(** ** tok_encode, the log-likelihood memo table and loglikelihood_rolling *)

(** A negative [left_truncate_len = k] is truthy, and [encoding[-k:]]
    then drops the first [-k] tokens instead of keeping the last ones. *)
Theorem tok_encode_negative_truncate_drops (encode : string -> bool -> list nat)
    (self : TorchLLM) (s : string) (ast : option bool) (k : Z) (Hk : k < 0) :
  tok_encode encode self s (Some k) ast = drop (Z.to_nat (- k)) (tok_encode encode self s None ast).
Proof.
  unfold tok_encode, py_slice_from.
  set (enc := encode s _).
  replace (negb (k =? 0)) with true by (symmetry; apply negb_true_iff, Z.eqb_neq; lia).
  replace (- k <? 0) with false by (symmetry; apply Z.ltb_ge; lia).
  destruct (Z.le_ge_cases (- k) (Z.of_nat (length enc))) as [Hle|Hge].
  - by rewrite Z.min_l.
  - rewrite Z.min_r by lia. rewrite !drop_ge; [done|lia|lia].
Qed.

Lemma greedy_zip_imap (A : nat -> nat) (gen : list nat) (a : nat) :
  forallb (fun p => andb (Nat.eqb p.1.1 p.1.2) p.2)
    (zip (zip (map A (seq a (length gen))) gen) (repeat true (length gen)))
  = forallb id (imap (fun i g => Nat.eqb (A (a + i)%nat) g) gen).
Proof.
  revert a. induction gen as [|g gen IH]; intros a; [done|].
  cbn [length seq map repeat zip_with forallb imap]. rewrite IH. cbn [fst snd id].
  rewrite andb_true_r, Nat.add_0_r. f_equal. f_equal.
  apply imap_ext. intros i x _. unfold compose. simpl. by rewrite Nat.add_succ_r.
Qed.

(** With a one-token context no label is a masked context token, so the
    greedy flag is exactly "every generation token is the argmax of the
    log-probabilities at its position". *)
Theorem score_fresh_greedy_single_context (model_forward : list nat -> nat -> list Z)
    (log_softmax : list Z -> list Z) (c0 : nat) (gen : list nat) :
  (score_fresh model_forward log_softmax [c0] gen).1.2
  = spec_greedy model_forward log_softmax [c0] gen.
Proof.
  unfold score_fresh, spec_greedy, spec_row.
  set (S0 := removelast ([c0] ++ gen)).
  assert (HS : length S0 = length gen).
  { unfold S0. rewrite length_removelast, length_app. simpl. lia. }
  clearbody S0. cbv zeta. cbn [fst snd].
  change (tail (repeat false (length [c0]) ++ repeat true (length gen)))
    with (repeat true (length gen)).
  change (tail ([c0] ++ gen)) with gen.
  rewrite HS, map_map.
  exact (greedy_zip_imap (fun j => argmax_row (log_softmax (model_forward S0 j))) gen 0).
Qed.

(** A request whose generation is not exactly one token neither reads nor
    writes [ll_cache]: it always gets the fresh forward-pass scoring and
    leaves the object unchanged. *)
Theorem ll_multi_token_bypasses_cache (model_forward : list nat -> nat -> list Z)
    (log_softmax : list Z -> list Z) (self : TorchLLM) (cs gs : string)
    (ctx gen : list nat) (Hlen : length gen <> 1%nat) :
  _loglikelihood_tokens_unbatched model_forward log_softmax self [(cs, gs, ctx, gen)]
  = (inr [(score_fresh model_forward log_softmax ctx gen).1], self).
Proof.
  unfold _loglikelihood_tokens_unbatched.
  destruct gen as [|g [|g' gen]]; [| simpl in Hlen; lia |];
    destruct (ll_cache self !! cs);
    (match goal with |- context [score_fresh ?a ?b ?c ?d] =>
       destruct (score_fresh a b c d) end); reflexivity.
Qed.

(** [ll_cache] is keyed by the context string alone: after a single-token
    request on a new context string [cs] with non-empty context tokens
    [c0 :: ctx1], which stores the log-probability row right after
    [c0 :: ctx1], every later single-token request on [cs] is answered
    from that row, whatever its own context tokens [ctx2], and leaves the
    object unchanged. *)
Theorem ll_cache_keyed_by_context_string (model_forward : list nat -> nat -> list Z)
    (log_softmax : list Z -> list Z) (self : TorchLLM) (cs gs1 gs2 : string)
    (c0 : nat) (ctx1 ctx2 : list nat) (g1 g2 : nat) (Hnew : ll_cache self !! cs = None) :
  let v := spec_row model_forward log_softmax (c0 :: ctx1) [g1] (length ctx1) in
  let self1 := (_loglikelihood_tokens_unbatched model_forward log_softmax self
                  [(cs, gs1, c0 :: ctx1, [g1])]).2 in
  ll_cache self1 = <[cs := v]> (ll_cache self)
  /\ _loglikelihood_tokens_unbatched model_forward log_softmax self1 [(cs, gs2, ctx2, [g2])]
     = (inr [(at_index v g2, Nat.eqb (argmax_row v) g2)], self1).
Proof.
  cbv zeta.
  pose proof (score_fresh_cached_row model_forward log_softmax c0 ctx1 g1) as Hrow.
  assert (E1 : _loglikelihood_tokens_unbatched model_forward log_softmax self
                 [(cs, gs1, c0 :: ctx1, [g1])]
               = (inr [(score_fresh model_forward log_softmax (c0 :: ctx1) [g1]).1],
                  set_ll_cache self
                    (<[cs := spec_row model_forward log_softmax (c0 :: ctx1) [g1]
                               (length ctx1)]> (ll_cache self)))).
  { unfold _loglikelihood_tokens_unbatched. rewrite Hnew.
    destruct (score_fresh model_forward log_softmax (c0 :: ctx1) [g1]).
    cbn [snd] in Hrow. by rewrite Hrow. }
  rewrite E1. cbn [snd]. split; [done|].
  unfold _loglikelihood_tokens_unbatched at 1. cbn [ll_cache set_ll_cache].
  by rewrite lookup_insert_eq.
Qed.

(** The memo table round-trips the log likelihood: for a non-empty
    context, repeating a single-token request that first missed the cache
    returns, from the cache, the same log likelihood as the fresh scoring
    (the spec's masked sum); only the greedy flags may differ. *)
Theorem ll_cache_round_trip_loglikelihood (model_forward : list nat -> nat -> list Z)
    (log_softmax : list Z -> list Z) (self : TorchLLM) (cs gs : string) (c0 : nat)
    (ctx' : list nat) (g : nat) (Hnew : ll_cache self !! cs = None) :
  exists b1 b2,
    (_loglikelihood_tokens_unbatched model_forward log_softmax self
       [(cs, gs, c0 :: ctx', [g])]).1
    = inr [(spec_loglikelihood model_forward log_softmax (c0 :: ctx') [g], b1)]
    /\ (_loglikelihood_tokens_unbatched model_forward log_softmax
          (_loglikelihood_tokens_unbatched model_forward log_softmax self
             [(cs, gs, c0 :: ctx', [g])]).2
          [(cs, gs, c0 :: ctx', [g])]).1
       = inr [(spec_loglikelihood model_forward log_softmax (c0 :: ctx') [g], b2)].
Proof.
  pose proof (score_fresh_loglikelihood model_forward log_softmax c0 ctx' [g]) as Hll.
  pose proof (score_fresh_cached_row model_forward log_softmax c0 ctx' g) as Hrow.
  assert (E1 : _loglikelihood_tokens_unbatched model_forward log_softmax self
                 [(cs, gs, c0 :: ctx', [g])]
               = (inr [(score_fresh model_forward log_softmax (c0 :: ctx') [g]).1],
                  set_ll_cache self
                    (<[cs := spec_row model_forward log_softmax (c0 :: ctx') [g]
                               (length ctx')]> (ll_cache self)))).
  { unfold _loglikelihood_tokens_unbatched. rewrite Hnew.
    destruct (score_fresh model_forward log_softmax (c0 :: ctx') [g]).
    cbn [snd] in Hrow. by rewrite Hrow. }
  rewrite E1.
  destruct (score_fresh model_forward log_softmax (c0 :: ctx') [g])
    as [[ll b1] cached] eqn:E.
  cbn [fst snd] in Hll |- *. subst ll.
  exists b1, (Nat.eqb (argmax_row (spec_row model_forward log_softmax (c0 :: ctx') [g]
                                     (length ctx'))) g).
  split; [done|].
  unfold _loglikelihood_tokens_unbatched. cbn [ll_cache set_ll_cache].
  rewrite lookup_insert_eq. cbn [fst]. do 3 f_equal.
  unfold spec_loglikelihood. cbn [imap sumZ].
  replace (length (c0 :: ctx') - 1 + 0)%nat with (length ctx') by (simpl; lia). lia.
Qed.

Lemma append_eot_lists (eot_token_id : Z) (toks : list (list pyval)) :
  append_eot eot_token_id (map PList toks)
  = inr (map (fun t => PList (t ++ [PInt eot_token_id])) toks).
Proof. induction toks as [|t toks IH]; [done|]. cbn [map append_eot]. by rewrite IH. Qed.

(** When the tokenizer yields token lists for a non-empty batch and the bos
    string is not yet in [ll_cache], [loglikelihood_rolling] raises the
    error of [len(bos_token_id)] (a [TypeError] for the int id a tokenizer
    has), before any forward pass and without touching the cache. *)
Theorem rolling_unsized_bos_token_id (model_forward : list nat -> nat -> list Z)
    (log_softmax : list Z -> list Z) (tokenizer_batch : list string -> list pyval)
    (eot_token_id : Z) (bos_token : string) (bos_token_id : pyval)
    (self : TorchLLM) (requests : list string) (toks : list (list pyval)) (e : exn)
    (Htok : tokenizer_batch requests = map PList toks) (Hne : toks <> [])
    (Hbos : py_len bos_token_id = inl e) (Hnew : ll_cache self !! bos_token = None) :
  loglikelihood_rolling model_forward log_softmax tokenizer_batch eot_token_id bos_token
    bos_token_id self requests = (inl e, self).
Proof.
  unfold loglikelihood_rolling. rewrite Htok, append_eot_lists.
  destruct toks as [|t toks]; [done|]. cbn [map ll_tokens_dyn].
  assert (Hu : forall g, unbatched_dyn model_forward log_softmax self
                           (PTuple [PTuple [PStr bos_token; g]; bos_token_id; g])
                         = (inl e, self)).
  { intros g. unfold unbatched_dyn. rewrite Hnew, Hbos. reflexivity. }
  by rewrite Hu.
Qed.

(** On an empty batch (the tokenizer yields no encodings),
    [results[0]] raises [IndexError]. *)
Theorem rolling_empty_batch_index_error (model_forward : list nat -> nat -> list Z)
    (log_softmax : list Z -> list Z) (tokenizer_batch : list string -> list pyval)
    (eot_token_id : Z) (bos_token : string) (bos_token_id : pyval) (self : TorchLLM)
    (Htok : tokenizer_batch [] = []) :
  loglikelihood_rolling model_forward log_softmax tokenizer_batch eot_token_id bos_token
    bos_token_id self [] = (inl IndexError, self).
Proof. unfold loglikelihood_rolling. by rewrite Htok. Qed.

(** ** __init__ *)

Lemma py_get_setitem_eq (d : list (string * pyval)) (key : string) (v default : pyval) :
  py_get (py_setitem d key v) key default = v.
Proof.
  induction d as [|[k w] d IH]; simpl.
  - by rewrite String.eqb_refl.
  - destruct (String.eqb_spec k key) as [->|Hne]; simpl.
    + by rewrite String.eqb_refl.
    + by rewrite (proj2 (String.eqb_neq k key) Hne).
Qed.

Lemma py_get_setitem_ne (d : list (string * pyval)) (key k : string) (v default : pyval) :
  k <> key -> py_get (py_setitem d key v) k default = py_get d k default.
Proof.
  intros Hk. induction d as [|[k' w] d IH]; simpl.
  - by rewrite (proj2 (String.eqb_neq key k) (not_eq_sym Hk)).
  - destruct (String.eqb_spec k' key) as [->|Hne]; simpl.
    + by rewrite (proj2 (String.eqb_neq key k) (not_eq_sym Hk)).
    + by destruct (String.eqb k' k).
Qed.

(** In [__init__], the LoRA layers are injected and later merged back
    exactly when [lora_args.json] exists in the checkpoint directory, while
    the LoRA weight file is loaded exactly when [lora_path] is truthy: the
    two decisions are independent.  Embedding LoRA is only ever injected
    together with linear LoRA, and each injected kind is merged back. *)
Theorem init_lora_decisions (parent : string -> string) (join : string -> string -> string)
    (file_exists : string -> bool) (read_json : string -> list (string * pyval))
    (assistant_end : string -> list nat) (eos_token_id : nat)
    (base_path : string) (lora_path tokenizer_config : option string) (device : string)
    (st : model_setup)
    (Hok : init_setup parent join file_exists read_json assistant_end eos_token_id
             base_path lora_path tokenizer_config device = inr st) :
  weight_paths st
    = base_path :: match lora_path with
                   | Some l => if String.eqb l EmptyString then [] else [l]
                   | None => []
                   end
  /\ lora_linear_injected st = file_exists (join (main_ckpt_dir st) "lora_args.json")
  /\ lora_linear_merged st = lora_linear_injected st
  /\ lora_embedding_merged st = lora_embedding_injected st
  /\ (lora_embedding_injected st = true -> lora_linear_injected st = true).
Proof.
  unfold init_setup in Hok.
  repeat case_match; simplify_eq/=; repeat split; congruence.
Qed.

(** On [device == "cpu"] the model parameters are those of [params.json]
    with ["use_flash_attn"] set to [False] and every other key unchanged;
    on any other device they are those of [params.json]. *)
Theorem init_cpu_disables_flash_attn (parent : string -> string)
    (join : string -> string -> string)
    (file_exists : string -> bool) (read_json : string -> list (string * pyval))
    (assistant_end : string -> list nat) (eos_token_id : nat)
    (base_path : string) (lora_path tokenizer_config : option string) (device : string)
    (st : model_setup)
    (Hok : init_setup parent join file_exists read_json assistant_end eos_token_id
             base_path lora_path tokenizer_config device = inr st) :
  (device = "cpu" ->
     py_get (model_params st) "use_flash_attn" PNone = PBool false
     /\ forall k d, k <> "use_flash_attn" ->
        py_get (model_params st) k d
        = py_get (read_json (join (main_ckpt_dir st) "params.json")) k d)
  /\ (device <> "cpu" ->
      model_params st = read_json (join (main_ckpt_dir st) "params.json")).
Proof.
  unfold init_setup in Hok.
  split; intros Hd.
  - subst device. cbn [String.eqb] in Hok.
    repeat case_match; simplify_eq/=; (split; [apply py_get_setitem_eq|]);
      intros k d Hk; by apply py_get_setitem_ne.
  - rewrite (proj2 (String.eqb_neq device "cpu") Hd) in Hok.
    repeat case_match; simplify_eq/=; done.
Qed.

(* ------------------------------------------------------------------ *)
(** * Witnesses of the further properties                              *)
(* ------------------------------------------------------------------ *)


Lemma generate_responses_avoid_all_stops_witness :
  (toy_generate [[("user", "ab")]; [("user", "a")]] [PInt 4; PInt 3] (map PStr ["q"; ""])
     []).1 = GenList ["x"; "xx"]
  /\ Forall (fun r => Forall (fun sep => sep <> EmptyString -> ~ contains r sep) ["q"; ""])
       ["x"; "xx"].
Proof.
  split; [reflexivity|].
  apply (generate_responses_avoid_all_stops (list nat) (list nat) toy_model_call toy_sample
           toy_reset toy_decode toy_template toy_eot [[("user", "ab")]; [("user", "a")]]
           [PInt 4; PInt 3] ["q"; ""] []).
  reflexivity.
Defined.

Lemma generate_non_str_stop_no_response_witness :
  Exists (fun st => (forall sep, st <> PStr sep) /\ py_len st <> inr 0) [PList [PStr "x"]]
  /\ (toy_generate [[("user", "ab")]; [("user", "a")]] [PInt 4; PInt 3] [PList [PStr "x"]]
        []).1 = GenErr TypeError
  /\ forall rs,
       (toy_generate [[("user", "ab")]; [("user", "a")]] [PInt 4; PInt 3] [PList [PStr "x"]]
          []).1 = GenList rs -> rs = [].
Proof.
  assert (H : Exists (fun st => (forall sep, st <> PStr sep) /\ py_len st <> inr 0)
                [PList [PStr "x"]]).
  { apply Exists_cons_hd. split; [intros sep; discriminate|discriminate]. }
  split; [exact H|]. split; [reflexivity|].
  exact (generate_non_str_stop_no_response (list nat) (list nat) toy_model_call toy_sample
           toy_reset toy_decode toy_template toy_eot [[("user", "ab")]; [("user", "a")]]
           [PInt 4; PInt 3] [PList [PStr "x"]] [] H).
Defined.

Lemma generate_response_count_witness :
  (toy_generate [[("user", "ab")]; [("user", "a")]; [("user", "b")]] [PInt 4; PInt 3]
     [PStr "q"; PStr ""; PStr "z"] []).1 = GenList ["x"; "xx"]
  /\ length ["x"; "xx"]
     = Nat.min (Nat.min (length [[("user", "ab")]; [("user", "a")]; [("user", "b")]])
                  (length [PInt 4; PInt 3]))
         (length [PStr "q"; PStr ""; PStr "z"]).
Proof.
  split; [reflexivity|].
  apply (generate_response_count (list nat) (list nat) toy_model_call toy_sample toy_reset
           toy_decode toy_template toy_eot
           [[("user", "ab")]; [("user", "a")]; [("user", "b")]] [PInt 4; PInt 3]
           [PStr "q"; PStr ""; PStr "z"] [] ["x"; "xx"]).
  reflexivity.
Defined.

Lemma generate_small_cap_unbound_witness :
  1 <= 1
  /\ eot_hit toy_eot
       [toy_sample (toy_model_call (toy_template [("user", "ab")]) (toy_reset [])).1] = false
  /\ (toy_generate [[("user", "ab")]] [PInt 1] [PStr "q"] []).1 = GenErr UnboundLocalError.
Proof.
  split; [lia|]. split; [reflexivity|].
  apply (generate_small_cap_unbound (list nat) (list nat) toy_model_call toy_sample toy_reset
           toy_decode toy_template toy_eot); [lia|reflexivity].
Defined.

Lemma decode_small_cap_stale_index_witness :
  1 <= 1
  /\ i_var {| kv := [7%nat]; trace := []; i_var := Some 0 |} = Some 0
  /\ eot_hit toy_eot [toy_sample (toy_model_call [1%nat] (toy_reset [7%nat])).1] = false
  /\ toy_decode_conversation [1%nat] (PInt 1) {| kv := [7%nat]; trace := []; i_var := Some 0 |}
     = DecDone ([toy_sample (toy_model_call [1%nat] (toy_reset [7%nat])).1]
                  ++ (if 0 =? 1 - 1 then toy_eot else []))
         {| kv := (toy_model_call [1%nat] (toy_reset [7%nat])).2;
            trace := [] ++ [EvReset; EvForward [1%nat]] ++ (if 0 =? 1 - 1 then [EvWarn] else []);
            i_var := Some 0 |}.
Proof.
  split; [lia|]. split; [reflexivity|]. split; [reflexivity|].
  apply (decode_small_cap_stale_index (list nat) (list nat) toy_model_call toy_sample
           toy_reset toy_eot [1%nat] 1 {| kv := [7%nat]; trace := []; i_var := Some 0 |} 0);
    [lia|reflexivity|reflexivity].
Defined.

Lemma eot_hit_iff_suffix_witness :
  toy_eot <> []
  /\ (eot_hit toy_eot [5; 2]%nat = true <-> exists pre, [5; 2]%nat = pre ++ toy_eot).
Proof.
  split; [discriminate|]. apply eot_hit_iff_suffix. discriminate.
Defined.

Lemma decode_empty_eot_runs_to_cap_witness :
  2 <= 3
  /\ exists sampled xs kv',
    decode_conversation (list nat) (list nat) toy_model_call toy_sample toy_reset []
      [1%nat] (PInt 3) toy_state0
    = DecDone sampled
        {| kv := kv';
           trace := trace toy_state0 ++ EvReset :: map EvForward ([1%nat] :: xs) ++ [EvWarn];
           i_var := Some (3 - 1) |}
    /\ length sampled = Z.to_nat 3
    /\ length ([1%nat] :: xs) = length sampled.
Proof.
  split; [lia|]. apply decode_empty_eot_runs_to_cap. lia.
Defined.

Lemma generate_until_missing_key_witness :
  Exists (fun r => Forall (fun p => p.1 <> "until") (args1 r)
                   \/ Forall (fun p => p.1 <> "max_gen_toks") (args1 r))
    [{| args0 := "ab"; args1 := [("until", PList [PStr "x"])] |}]
  /\ toy_generate_until [{| args0 := "ab"; args1 := [("until", PList [PStr "x"])] |}] [7%nat]
     = (GenErr KeyError, {| kv := [7%nat]; trace := []; i_var := None |}).
Proof.
  assert (H : Exists (fun r => Forall (fun p => p.1 <> "until") (args1 r)
                               \/ Forall (fun p => p.1 <> "max_gen_toks") (args1 r))
                [{| args0 := "ab"; args1 := [("until", PList [PStr "x"])] |}]).
  { apply Exists_cons_hd. right. repeat constructor. simpl. discriminate. }
  split; [exact H|].
  exact (generate_until_missing_key toy_model_call toy_sample toy_reset toy_decode
           toy_template toy_eot _ [7%nat] H).
Defined.

Lemma tok_encode_negative_truncate_drops_witness :
  -1 < 0
  /\ tok_encode toy_encode toy_self "abc" (Some (-1)) None
     = drop (Z.to_nat (- -1)) (tok_encode toy_encode toy_self "abc" None None)
  /\ tok_encode toy_encode toy_self "abc" (Some (-1)) None = [1; 1]%nat.
Proof.
  split; [lia|]. split; [|reflexivity].
  apply tok_encode_negative_truncate_drops. lia.
Defined.

Lemma ll_multi_token_bypasses_cache_witness :
  length [1; 1]%nat <> 1%nat
  /\ _loglikelihood_tokens_unbatched toy_forward toy_log_softmax toy_self
       [(("a", " b c"), [0]%nat, [1; 1]%nat)]
     = (inr [(score_fresh toy_forward toy_log_softmax [0]%nat [1; 1]%nat).1], toy_self).
Proof.
  split; [discriminate|]. apply ll_multi_token_bypasses_cache. discriminate.
Defined.

Lemma ll_cache_keyed_by_context_string_witness :
  ll_cache toy_self !! "a b" = None
  /\ (let v := spec_row toy_forward toy_log_softmax [0; 2]%nat [1%nat] (length [2%nat]) in
      let self1 := (_loglikelihood_tokens_unbatched toy_forward toy_log_softmax toy_self
                      [("a b", " c", [0; 2]%nat, [1%nat])]).2 in
      ll_cache self1 = <[ "a b" := v]> (ll_cache toy_self)
      /\ _loglikelihood_tokens_unbatched toy_forward toy_log_softmax self1
           [("a b", " d", [3]%nat, [0%nat])]
         = (inr [(at_index v 0, Nat.eqb (argmax_row v) 0)], self1)).
Proof.
  split; [reflexivity|]. apply ll_cache_keyed_by_context_string. reflexivity.
Defined.

Lemma rolling_unsized_bos_token_id_witness :
  toy_tokenizer_batch ["ab"] = map PList [[PInt 1; PInt 1]]
  /\ [[PInt 1; PInt 1]] <> []
  /\ py_len (PInt 0) = inl TypeError
  /\ ll_cache toy_self !! "<s>" = None
  /\ loglikelihood_rolling toy_forward toy_log_softmax toy_tokenizer_batch 2 "<s>" (PInt 0)
       toy_self ["ab"] = (inl TypeError, toy_self).
Proof.
  split; [reflexivity|]. split; [discriminate|]. split; [reflexivity|].
  split; [reflexivity|].
  apply (rolling_unsized_bos_token_id _ _ _ _ _ _ _ _ [[PInt 1; PInt 1]]);
    [reflexivity|discriminate|reflexivity|reflexivity].
Defined.

Lemma rolling_empty_batch_index_error_witness :
  toy_tokenizer_batch [] = []
  /\ loglikelihood_rolling toy_forward toy_log_softmax toy_tokenizer_batch 2 "<s>" (PInt 0)
       toy_self [] = (inl IndexError, toy_self).
Proof.
  split; [reflexivity|]. apply rolling_empty_batch_index_error. reflexivity.
Defined.

(** A LoRA checkpoint without [lora_args.json]: the LoRA weight file is
    loaded although no LoRA layer is injected. *)
Lemma init_lora_decisions_witness :
  init_setup toy_parent toy_join (fun _ => false) toy_read_json toy_assistant_end 2
    "base" (Some "lora") None "cuda"
  = inr {| main_ckpt_dir := "ckpt"; setup_eot_ids := [2%nat];
           model_params := toy_read_json "ckptparams.json";
           lora_linear_injected := false; lora_embedding_injected := false;
           weight_paths := ["base"; "lora"];
           lora_linear_merged := false; lora_embedding_merged := false |}
  /\ (let st := {| main_ckpt_dir := "ckpt"; setup_eot_ids := [2%nat];
                   model_params := toy_read_json "ckptparams.json";
                   lora_linear_injected := false; lora_embedding_injected := false;
                   weight_paths := ["base"; "lora"];
                   lora_linear_merged := false; lora_embedding_merged := false |} in
      weight_paths st
        = "base" :: match Some "lora" with
                    | Some l => if String.eqb l EmptyString then [] else [l]
                    | None => []
                    end
      /\ lora_linear_injected st = (fun _ => false) (toy_join (main_ckpt_dir st) "lora_args.json")
      /\ lora_linear_merged st = lora_linear_injected st
      /\ lora_embedding_merged st = lora_embedding_injected st
      /\ (lora_embedding_injected st = true -> lora_linear_injected st = true)).
Proof.
  split; [reflexivity|]. cbv zeta.
  apply (init_lora_decisions toy_parent toy_join (fun _ => false) toy_read_json
           toy_assistant_end 2 "base" (Some "lora") None "cuda").
  reflexivity.
Defined.

Lemma init_cpu_disables_flash_attn_witness :
  toy_init_setup "base" (Some "lora") None "cpu"
  = inr {| main_ckpt_dir := "ckpt"; setup_eot_ids := [2%nat];
           model_params := py_setitem (toy_read_json "ckptparams.json") "use_flash_attn"
                             (PBool false);
           lora_linear_injected := true; lora_embedding_injected := false;
           weight_paths := ["base"; "lora"];
           lora_linear_merged := true; lora_embedding_merged := false |}
  /\ (let st := {| main_ckpt_dir := "ckpt"; setup_eot_ids := [2%nat];
                   model_params := py_setitem (toy_read_json "ckptparams.json")
                                     "use_flash_attn" (PBool false);
                   lora_linear_injected := true; lora_embedding_injected := false;
                   weight_paths := ["base"; "lora"];
                   lora_linear_merged := true; lora_embedding_merged := false |} in
      ("cpu" = "cpu" ->
         py_get (model_params st) "use_flash_attn" PNone = PBool false
         /\ forall k d, k <> "use_flash_attn" ->
            py_get (model_params st) k d
            = py_get (toy_read_json (toy_join (main_ckpt_dir st) "params.json")) k d)
      /\ ("cpu" <> "cpu" ->
          model_params st = toy_read_json (toy_join (main_ckpt_dir st) "params.json"))).
Proof.
  split; [reflexivity|]. cbv zeta.
  apply (init_cpu_disables_flash_attn toy_parent toy_join toy_file_exists toy_read_json
           toy_assistant_end 2 "base" (Some "lora") None "cpu").
  reflexivity.
Defined.

Lemma ll_cache_round_trip_loglikelihood_witness :
  ll_cache toy_self !! "a b" = None
  /\ exists b1 b2,
    (_loglikelihood_tokens_unbatched toy_forward toy_log_softmax toy_self
       [("a b", " c", [0; 2]%nat, [1%nat])]).1
    = inr [(spec_loglikelihood toy_forward toy_log_softmax [0; 2]%nat [1%nat], b1)]
    /\ (_loglikelihood_tokens_unbatched toy_forward toy_log_softmax
          (_loglikelihood_tokens_unbatched toy_forward toy_log_softmax toy_self
             [("a b", " c", [0; 2]%nat, [1%nat])]).2
          [("a b", " c", [0; 2]%nat, [1%nat])]).1
       = inr [(spec_loglikelihood toy_forward toy_log_softmax [0; 2]%nat [1%nat], b2)].
Proof.
  split; [reflexivity|]. apply ll_cache_round_trip_loglikelihood. reflexivity.
Defined.
